(** * projecto-backend: accounts and projects

    A shallow embedding of the Django applications [accounts] and
    [projects]: the model tables, the user manager, the serializers'
    [create] methods and the views' [get_queryset] / [create] / [list]
    methods, followed by the properties of the request / membership
    lifecycle, the discovery listing and the summary counts.

    The relational store is a record of lists, one per model, in insertion
    order.  Python exceptions are a sum type; code that writes to the store
    lives in a state-and-exception monad, code that only reads returns a
    [result].  Timestamps ([created_at], [joined_on], [rejected_on],
    [date_joined]) are not part of any property below and are left out of
    the rows. *)

From Stdlib Require Import String Ascii List Bool Arith Lia.
Import ListNotations.
Local Open Scope string_scope.
Local Open Scope list_scope.

(* ------------------------------------------------------------------ *)
(** ** Exceptions and results *)

(** The two models that are looked up with [objects.get]. *)
Inductive model : Type := Users_model | ProjectLead_model.

Definition model_eqb (a b : model) : bool :=
  match a, b with
  | Users_model, Users_model => true
  | ProjectLead_model, ProjectLead_model => true
  | _, _ => false
  end.

(** The Python exceptions the code raises or lets through.
    [ValidationError] carries the one-entry dict [{field: message}] the
    serializers build. *)
Inductive exn : Type :=
| DoesNotExist (m : model)
| MultipleObjectsReturned (m : model)
| ValidationError (field : string) (message : string)
| ValueError (message : string)
| KeyError (key : string)
| UnboundLocalError (name : string)
| IntegrityError.

Inductive result (A : Type) : Type :=
| Ok (a : A)
| Raise (e : exn).
Arguments Ok {A} a.
Arguments Raise {A} e.

Definition rbind {A B} (r : result A) (k : A -> result B) : result B :=
  match r with
  | Ok a => k a
  | Raise e => Raise e
  end.

(** [try: body / except <catches>: handler]. *)
Definition try_except {A} (body : result A) (catches : exn -> bool)
           (handler : exn -> result A) : result A :=
  match body with
  | Ok a => Ok a
  | Raise e => if catches e then handler e else Raise e
  end.

(** [except M.DoesNotExist]. *)
Definition is_DoesNotExist (m : model) (e : exn) : bool :=
  match e with
  | DoesNotExist m' => model_eqb m m'
  | _ => false
  end.

(** A bare [except:]. *)
Definition any_exception (e : exn) : bool := true.

Declare Scope result_scope.
Delimit Scope result_scope with result.
Notation "x <- c ;; k" := (rbind c (fun x => k))
  (at level 61, c at next level, right associativity) : result_scope.

(* ------------------------------------------------------------------ *)
(** ** Python values: truthiness, local variables, optional dict keys *)

(** [if v:] for a value that is [None] or a [str]. *)
Definition truthy (v : option string) : option string :=
  match v with
  | Some s => if s =? "" then None else Some s
  | None => None
  end.

(** [v == lit] for a value that is [None] or a [str]. *)
Definition str_is (v : option string) (lit : string) : bool :=
  match v with
  | Some s => s =? lit
  | None => false
  end.

(** Reading a local variable that an earlier branch may have left
    unbound. *)
Definition local {A} (name : string) (v : option A) : result A :=
  match v with
  | Some a => Ok a
  | None => Raise (UnboundLocalError name)
  end.

(** [d[key]] on a dict where the key may be missing. *)
Definition getitem {A} (key : string) (v : option A) : result A :=
  match v with
  | Some a => Ok a
  | None => Raise (KeyError key)
  end.

(** [d.get(key, default)]. *)
Definition get_default {A} (v : option A) (default : A) : A :=
  match v with
  | Some a => a
  | None => default
  end.

(** [request.query_params]: the [key=value] pairs of the query string;
    [get] returns the last value given for the key, or [None]. *)
Definition QueryDict : Type := list (string * string).

Fixpoint query_params_get (q : QueryDict) (key : string) : option string :=
  match q with
  | [] => None
  | (k, v) :: q' =>
      match query_params_get q' key with
      | Some v' => Some v'
      | None => if k =? key then Some v else None
      end
  end.

(* ------------------------------------------------------------------ *)
(** ** Models (accounts/models.py, projects/models.py) *)

Module Users.
Record t : Type := mk {
  id : nat;
  email : string;            (* unique=True *)
  password : string;         (* the hash stored by set_password *)
  firstname : string;
  lastname : string;
  frontend : bool;           (* default=False *)
  backend : bool;            (* default=False *)
  is_active : bool;          (* default=True *)
  is_staff : bool;           (* default=False *)
  is_superuser : bool        (* PermissionsMixin, default=False *)
}.
End Users.

Module ProjectLead.
Record t : Type := mk {
  id : nat;
  owner : nat;               (* ForeignKey to Users *)
  projectname : string;
  description : string;
  frontend : bool;           (* default=False *)
  backend : bool             (* default=False *)
}.
(** unique_together = (("owner", "projectname"),) *)
Definition unique_key (p : t) : nat * string := (owner p, projectname p).
End ProjectLead.

Module ProjectRequest.
Record t : Type := mk {
  id : nat;
  project : nat;             (* ForeignKey to ProjectLead *)
  member : nat;              (* ForeignKey to Users *)
  message : string
}.
(** unique_together = (("project", "member"),) *)
Definition unique_key (r : t) : nat * nat := (project r, member r).
Definition default_message : string :=
  "I am interested in joining this project".
End ProjectRequest.

Module ProjectMembers.
Record t : Type := mk {
  id : nat;
  project : nat;
  member : nat;
  message : string
}.
(** unique_together = (("project", "member"),) *)
Definition unique_key (r : t) : nat * nat := (project r, member r).
End ProjectMembers.

Module ProjectRequestRejected.
Record t : Type := mk {
  id : nat;
  project : nat;
  user : nat;
  message : string
}.
(** unique_together = (("project", "user"),) *)
Definition unique_key (r : t) : nat * nat := (project r, user r).
End ProjectRequestRejected.

(** The database: one table per model. *)
Record Store : Type := mkStore {
  users : list Users.t;
  projectleads : list ProjectLead.t;
  projectrequests : list ProjectRequest.t;
  projectmembers : list ProjectMembers.t;
  projectrejected : list ProjectRequestRejected.t
}.

Definition empty_store : Store := mkStore [] [] [] [] [].

Definition set_users (db : Store) (l : list Users.t) : Store :=
  mkStore l (projectleads db) (projectrequests db) (projectmembers db)
          (projectrejected db).
Definition set_projectleads (db : Store) (l : list ProjectLead.t) : Store :=
  mkStore (users db) l (projectrequests db) (projectmembers db)
          (projectrejected db).
Definition set_projectrequests (db : Store) (l : list ProjectRequest.t) : Store :=
  mkStore (users db) (projectleads db) l (projectmembers db)
          (projectrejected db).
Definition set_projectmembers (db : Store) (l : list ProjectMembers.t) : Store :=
  mkStore (users db) (projectleads db) (projectrequests db) l
          (projectrejected db).
Definition set_projectrejected (db : Store)
           (l : list ProjectRequestRejected.t) : Store :=
  mkStore (users db) (projectleads db) (projectrequests db)
          (projectmembers db) l.

(* ------------------------------------------------------------------ *)
(** ** The state-and-exception monad of code that writes to the store *)

Definition M (A : Type) : Type := Store -> result A * Store.

Definition ret {A} (a : A) : M A := fun db => (Ok a, db).
Definition raise {A} (e : exn) : M A := fun db => (Raise e, db).
Definition bind {A B} (c : M A) (k : A -> M B) : M B :=
  fun db =>
    match c db with
    | (Ok a, db') => k a db'
    | (Raise e, db') => (Raise e, db')
    end.
(** A read-only query run against the current store. *)
Definition query {A} (q : Store -> result A) : M A := fun db => (q db, db).
Definition lift {A} (r : result A) : M A := fun db => (r, db).

Declare Scope M_scope.
Delimit Scope M_scope with M.
Notation "x <- c ;; k" := (bind c (fun x => k))
  (at level 61, c at next level, right associativity) : M_scope.

(* ------------------------------------------------------------------ *)
(** ** Query sets *)

Definition exclude {A} (f : A -> bool) (l : list A) : list A :=
  filter (fun x => negb (f x)) l.

(** [queryset.get(...)]: the one matching row, [DoesNotExist] when there
    is none, [MultipleObjectsReturned] when there are several. *)
Definition objects_get {A} (m : model) (f : A -> bool) (rows : list A)
  : result A :=
  match filter f rows with
  | [] => Raise (DoesNotExist m)
  | [x] => Ok x
  | _ :: _ :: _ => Raise (MultipleObjectsReturned m)
  end.

(** [id__in = ids]. *)
Definition id_in (ids : list nat) (i : nat) : bool :=
  existsb (Nat.eqb i) ids.

Definition pair_eqb (a b : nat * nat) : bool :=
  (fst a =? fst b)%nat && (snd a =? snd b)%nat.

Definition owner_name_eqb (a b : nat * string) : bool :=
  (fst a =? fst b)%nat && (snd a =? snd b).

(** The primary key given to a new row. *)
Definition next_id (ids : list nat) : nat := S (list_max ids).

(** [User.objects.get(email=email)]. *)
Definition User_objects_get (email : string) (db : Store) : result Users.t :=
  objects_get Users_model (fun u => Users.email u =? email) (users db).

(** [ProjectLead.objects.filter(owner=owner).get(projectname=projectname)]
    and [ProjectLead.objects.get(owner=user, projectname=projectname)]. *)
Definition ProjectLead_objects_get (owner : Users.t) (projectname : string)
           (db : Store) : result ProjectLead.t :=
  objects_get ProjectLead_model
              (fun p => ProjectLead.projectname p =? projectname)
              (filter (fun p => (ProjectLead.owner p =? Users.id owner)%nat)
                      (projectleads db)).

(* ------------------------------------------------------------------ *)
(** ** Inserting rows under the models' uniqueness constraints

    [Model.objects.create(...)] and [instance.save()] insert one row; the
    store refuses a row that repeats a [unique] / [unique_together] key
    with [IntegrityError] and is left as it was. *)

Definition Users_save (user : Users.t) : M Users.t :=
  fun db =>
    if existsb (fun u => Users.email u =? Users.email user) (users db)
    then (Raise IntegrityError, db)
    else (Ok user, set_users db (users db ++ [user])).

Definition ProjectLead_objects_create (owner : Users.t)
           (projectname description : string) (frontend backend : bool)
  : M ProjectLead.t :=
  fun db =>
    let row := ProjectLead.mk (next_id (map ProjectLead.id (projectleads db)))
                              (Users.id owner) projectname description
                              frontend backend in
    if existsb (fun p => owner_name_eqb (ProjectLead.unique_key p)
                                        (ProjectLead.unique_key row))
               (projectleads db)
    then (Raise IntegrityError, db)
    else (Ok row, set_projectleads db (projectleads db ++ [row])).

Definition ProjectRequest_objects_create (project : ProjectLead.t)
           (member : Users.t) (message : string) : M ProjectRequest.t :=
  fun db =>
    let row := ProjectRequest.mk
                 (next_id (map ProjectRequest.id (projectrequests db)))
                 (ProjectLead.id project) (Users.id member) message in
    if existsb (fun r => pair_eqb (ProjectRequest.unique_key r)
                                  (ProjectRequest.unique_key row))
               (projectrequests db)
    then (Raise IntegrityError, db)
    else (Ok row, set_projectrequests db (projectrequests db ++ [row])).

Definition ProjectMembers_objects_create (project : ProjectLead.t)
           (member : Users.t) (message : string) : M ProjectMembers.t :=
  fun db =>
    let row := ProjectMembers.mk
                 (next_id (map ProjectMembers.id (projectmembers db)))
                 (ProjectLead.id project) (Users.id member) message in
    if existsb (fun r => pair_eqb (ProjectMembers.unique_key r)
                                  (ProjectMembers.unique_key row))
               (projectmembers db)
    then (Raise IntegrityError, db)
    else (Ok row, set_projectmembers db (projectmembers db ++ [row])).

Definition ProjectRequestRejected_objects_create (project : ProjectLead.t)
           (user : Users.t) (message : string) : M ProjectRequestRejected.t :=
  fun db =>
    let row := ProjectRequestRejected.mk
                 (next_id (map ProjectRequestRejected.id (projectrejected db)))
                 (ProjectLead.id project) (Users.id user) message in
    if existsb (fun r => pair_eqb (ProjectRequestRejected.unique_key r)
                                  (ProjectRequestRejected.unique_key row))
               (projectrejected db)
    then (Raise IntegrityError, db)
    else (Ok row, set_projectrejected db (projectrejected db ++ [row])).

(* ------------------------------------------------------------------ *)
(** ** accounts/manager.py *)

(** What the user manager takes from the authentication library it
    extends: [BaseUserManager.normalize_email] and the password hasher
    behind [set_password]. *)
Class AuthLibrary : Type := {
  normalize_email : string -> string;
  make_password : string -> string
}.

Module UserManager.
(** The keyword arguments [**extra_fields]; a field that is not passed
    takes the model's default. *)
Record extra_fields : Type := mk_extra {
  firstname : option string;
  lastname : option string;
  frontend : option bool;
  backend : option bool;
  is_active : option bool;
  is_staff : option bool;
  is_superuser : option bool
}.

Section Manager.
Context {auth : AuthLibrary}.

(** [self.model(email=email, **extra_fields)] followed by
    [user.set_password(password)]. *)
Definition model (pk : nat) (email password : string)
           (extra : extra_fields) : Users.t :=
  Users.mk pk email (make_password password)
           (get_default (firstname extra) "")
           (get_default (lastname extra) "")
           (get_default (frontend extra) false)
           (get_default (backend extra) false)
           (get_default (is_active extra) true)
           (get_default (is_staff extra) false)
           (get_default (is_superuser extra) false).

Definition create_user (email password : string) (extra : extra_fields)
  : M Users.t :=
  if email =? "" then
    raise (ValueError "Users must have an email address")
  else
    let email := normalize_email email in
    fun db =>
      let user := model (next_id (map Users.id (users db)))
                        email password extra in
      Users_save user db.

(** [extra_fields.setdefault(key, default)]. *)
Definition setdefault (v : option bool) (default : bool) : option bool :=
  match v with
  | Some b => Some b
  | None => Some default
  end.

(** [extra_fields.get(key) is not True]. *)
Definition is_not_True (v : option bool) : bool :=
  match v with
  | Some true => false
  | _ => true
  end.

Definition create_superuser (email password : string) (extra : extra_fields)
  : M Users.t :=
  let extra := mk_extra (firstname extra) (lastname extra)
                        (frontend extra) (backend extra)
                        (setdefault (is_active extra) true)
                        (setdefault (is_staff extra) true)
                        (setdefault (is_superuser extra) true) in
  if is_not_True (is_staff extra) then
    raise (ValueError "Superuser must have is_staff=True")
  else if is_not_True (is_superuser extra) then
    raise (ValueError "Superuser must have is_superuser=True")
  else create_user email password extra.
End Manager.
End UserManager.

(* ------------------------------------------------------------------ *)
(** ** accounts/serializers.py *)

Module UsersCreateSerializer.
(** [validated_data]: the two flags have model defaults, so the
    serializer does not require them and the keys may be missing. *)
Record validated_data : Type := mk {
  firstname : string;
  lastname : string;
  email : string;
  password : string;
  frontend : option bool;
  backend : option bool
}.

Definition create {auth : AuthLibrary} (vd : validated_data) : M Users.t :=
  (frontend_v <- lift (getitem "frontend" (frontend vd)) ;;
   backend_v <- lift (getitem "backend" (backend vd)) ;;
   UserManager.create_user
     (email vd) (password vd)
     (UserManager.mk_extra (Some (firstname vd)) (Some (lastname vd))
                           (Some frontend_v) (Some backend_v)
                           None None None))%M.
End UsersCreateSerializer.

(* ------------------------------------------------------------------ *)
(** ** projects/serializers.py *)

(** [try: User.objects.get(email=email) / except User.DoesNotExist:
    raise serializers.ValidationError({field: message})]. *)
Definition get_user_or_invalid (email field message : string) : M Users.t :=
  query (fun db =>
           try_except (User_objects_get email db)
                      (is_DoesNotExist Users_model)
                      (fun _ => Raise (ValidationError field message))).

(** [try: ProjectLead.objects.filter(owner=owner).get(projectname=...) /
    except ProjectLead.DoesNotExist: raise ValidationError(...)]. *)
Definition get_project_or_invalid (owner : Users.t)
           (projectname field message : string) : M ProjectLead.t :=
  query (fun db =>
           try_except (ProjectLead_objects_get owner projectname db)
                      (is_DoesNotExist ProjectLead_model)
                      (fun _ => Raise (ValidationError field message))).

Module ProjectLeadCreateSerializer.
Record validated_data : Type := mk {
  email : string;
  projectname : string;
  description : string;
  frontend : option bool;
  backend : option bool
}.

Definition create (vd : validated_data) : M ProjectLead.t :=
  (user <- get_user_or_invalid (email vd) "email"
                               "User with this email does not exist" ;;
   frontend_v <- lift (getitem "frontend" (frontend vd)) ;;
   backend_v <- lift (getitem "backend" (backend vd)) ;;
   ProjectLead_objects_create user (projectname vd) (description vd)
                              frontend_v backend_v)%M.
End ProjectLeadCreateSerializer.

Module ProjectRequestCreateSerializer.
Record validated_data : Type := mk {
  owner_email : string;
  projectname : string;
  member_email : string;
  message : option string
}.

Definition create (vd : validated_data) : M ProjectRequest.t :=
  let message_v := get_default (message vd)
                               "I am interested in joining this project" in
  (owner <- get_user_or_invalid (owner_email vd) "owner_email"
                                "Owner with this email does not exist." ;;
   member <- get_user_or_invalid (member_email vd) "member_email"
                                 "Member with this email does not exist." ;;
   project <- get_project_or_invalid owner (projectname vd) "projectname"
                                     "This project does not exist." ;;
   ProjectRequest_objects_create project member message_v)%M.
End ProjectRequestCreateSerializer.

Module ProjectMemberCreateSerializer.
Record validated_data : Type := mk {
  email : string;
  owner : string;
  projectname : string;
  message : option string
}.

Definition create (vd : validated_data) : M ProjectMembers.t :=
  (owner_u <- get_user_or_invalid (owner vd) "owner"
                                  "Owner with this email does not exist" ;;
   member <- get_user_or_invalid (email vd) "member"
                                 "Member with this email does not exist" ;;
   project <- get_project_or_invalid owner_u (projectname vd) "project"
                                     "This project does not exist" ;;
   message_v <- lift (getitem "message" (message vd)) ;;
   ProjectMembers_objects_create project member message_v)%M.
End ProjectMemberCreateSerializer.

Module ProjectRejectedCreateSerializer.
Record validated_data : Type := mk {
  email : string;
  owner : string;
  projectname : string;
  message : option string
}.

Definition create (vd : validated_data) : M ProjectRequestRejected.t :=
  (owner_u <- get_user_or_invalid (owner vd) "owner"
                                  "Owner with this email does not exist" ;;
   member <- get_user_or_invalid (email vd) "member"
                                 "Member with this email does not exist" ;;
   project <- get_project_or_invalid owner_u (projectname vd) "project"
                                     "This project does not exist" ;;
   message_v <- lift (getitem "message" (message vd)) ;;
   ProjectRequestRejected_objects_create project member message_v)%M.
End ProjectRejectedCreateSerializer.

(* ------------------------------------------------------------------ *)
(** ** Responses and the framework's handling of a view's exceptions *)

Inductive payload : Type :=
| FieldErrors (errors : list (string * string))
| ErrorMessage (error : string)
| ProjectLeadData (projectname description : string) (frontend backend : bool)
| MessageData (message : string)
| UserData (firstname lastname email : string) (frontend backend : bool)
| CountData (createdprojects joinedprojects pendingrequests : nat).

Record Response : Type := mkResponse {
  data : payload;
  status : nat
}.

(** The serializer as the view sees it after [is_valid()]: either
    [errors], or [validated_data]. *)
Inductive serializer (V : Type) : Type :=
| Invalid (errors : list (string * string))
| Valid (validated_data : V).
Arguments Invalid {V} errors.
Arguments Valid {V} validated_data.

(** The REST framework around a view method: a [ValidationError] raised
    inside the view becomes a 400 response carrying its detail; every
    other exception of [exn] is not an API exception and is raised again,
    out of the view. *)
Definition handle_exception (view : M Response) : M Response :=
  fun db =>
    match view db with
    | (Raise (ValidationError field message), db') =>
        (Ok (mkResponse (FieldErrors [(field, message)]) 400), db')
    | other => other
    end.

(* ------------------------------------------------------------------ *)
(** ** projects/views.py *)

Module ProjectLeadView.
Definition create
           (s : serializer ProjectLeadCreateSerializer.validated_data)
  : M Response :=
  match s with
  | Invalid errors => ret (mkResponse (FieldErrors errors) 400)
  | Valid validated_data =>
      (project <- ProjectLeadCreateSerializer.create validated_data ;;
       ret (mkResponse
              (ProjectLeadData (ProjectLead.projectname project)
                               (ProjectLead.description project)
                               (ProjectLead.frontend project)
                               (ProjectLead.backend project))
              201))%M
  end.

Definition get_queryset (query_params : QueryDict) (db : Store)
  : result (list ProjectLead.t) :=
  let queryset := projectleads db in
  let email := query_params_get query_params "email" in
  match truthy email with
  | Some email =>
      try_except
        (user <- User_objects_get email db ;;
         Ok (filter (fun p => (ProjectLead.owner p =? Users.id user)%nat)
                    queryset))%result
        (is_DoesNotExist Users_model)
        (fun _ => Ok queryset)
  | None => Ok queryset
  end.
End ProjectLeadView.

Module ProjectsDisplayView.
(** The [if / elif / elif] on the two skill parameters. *)
Definition skill_filter (frontend backend : option string)
           (queryset : list ProjectLead.t) : list ProjectLead.t :=
  if str_is frontend "true" && str_is backend "true" then queryset
  else if str_is frontend "true" then filter ProjectLead.frontend queryset
  else if str_is backend "true" then filter ProjectLead.backend queryset
  else queryset.

Definition get_queryset (query_params : QueryDict) (db : Store)
  : result (list ProjectLead.t) :=
  let queryset := projectleads db in
  let email := query_params_get query_params "email" in
  let frontend := query_params_get query_params "frontend" in
  let backend := query_params_get query_params "backend" in
  match truthy email with
  | Some email =>
      (* the try block binds [user]; the handler passes and leaves it
         unbound *)
      (bound <- try_except
                  (user <- User_objects_get email db ;;
                   Ok (Some user,
                       exclude (fun p => (ProjectLead.owner p
                                          =? Users.id user)%nat)
                               queryset))
                  (is_DoesNotExist Users_model)
                  (fun _ => Ok (None, queryset)) ;;
       let user := fst bound in
       let queryset := snd bound in
       let queryset := skill_filter frontend backend queryset in
       user_v <- local "user" user ;;
       let projectsrequest :=
         map ProjectRequest.project
             (filter (fun r => (ProjectRequest.member r
                                =? Users.id user_v)%nat)
                     (projectrequests db)) in
       user_v <- local "user" user ;;
       let projectsjoined :=
         map ProjectMembers.project
             (filter (fun r => (ProjectMembers.member r
                                =? Users.id user_v)%nat)
                     (projectmembers db)) in
       let queryset :=
         exclude (fun p => id_in projectsrequest (ProjectLead.id p))
                 queryset in
       let queryset :=
         exclude (fun p => id_in projectsjoined (ProjectLead.id p))
                 queryset in
       Ok queryset)%result
  | None => Ok []
  end.
End ProjectsDisplayView.

Module ProjectRequestView.
Definition create
           (s : serializer ProjectRequestCreateSerializer.validated_data)
  : M Response :=
  match s with
  | Invalid errors => ret (mkResponse (FieldErrors errors) 400)
  | Valid validated_data =>
      (new_request <- ProjectRequestCreateSerializer.create validated_data ;;
       ret (mkResponse (MessageData (ProjectRequest.message new_request))
                       201))%M
  end.
End ProjectRequestView.

Module ProjectRequestDisplayView.
Definition get_queryset (query_params : QueryDict) (db : Store)
  : result (list ProjectRequest.t) :=
  let queryset := projectrequests db in
  let email := query_params_get query_params "email" in
  let projectname := query_params_get query_params "projectname" in
  match truthy email, truthy projectname with
  | Some email, Some projectname =>
      try_except
        (user <- User_objects_get email db ;;
         project <- ProjectLead_objects_get user projectname db ;;
         Ok (filter (fun r => (ProjectRequest.project r
                               =? ProjectLead.id project)%nat)
                    queryset))%result
        (fun e => is_DoesNotExist Users_model e
                  || is_DoesNotExist ProjectLead_model e)
        (fun _ => Ok queryset)
  | _, _ => Ok queryset
  end.
End ProjectRequestDisplayView.

Module ProjectMembersView.
Definition create
           (s : serializer ProjectMemberCreateSerializer.validated_data)
  : M Response :=
  match s with
  | Invalid errors => ret (mkResponse (FieldErrors errors) 400)
  | Valid validated_data =>
      (new_member <- ProjectMemberCreateSerializer.create validated_data ;;
       ret (mkResponse (MessageData (ProjectMembers.message new_member))
                       201))%M
  end.
End ProjectMembersView.

Module ProjectRejectedView.
Definition create
           (s : serializer ProjectRejectedCreateSerializer.validated_data)
  : M Response :=
  match s with
  | Invalid errors => ret (mkResponse (FieldErrors errors) 400)
  | Valid validated_data =>
      (rejected_request <-
         ProjectRejectedCreateSerializer.create validated_data ;;
       ret (mkResponse
              (MessageData (ProjectRequestRejected.message rejected_request))
              201))%M
  end.
End ProjectRejectedView.

Module JoinedProjectDisplayView.
Definition get_queryset (query_params : QueryDict) (db : Store)
  : result (list ProjectMembers.t) :=
  let queryset := projectmembers db in
  let email := query_params_get query_params "email" in
  match truthy email with
  | Some email =>
      try_except
        (user <- User_objects_get email db ;;
         Ok (filter (fun r => (ProjectMembers.member r
                               =? Users.id user)%nat)
                    queryset))%result
        any_exception
        (fun _ => Ok queryset)
  | None => Ok queryset
  end.
End JoinedProjectDisplayView.

Module ProjectMembersDisplayView.
Definition get_queryset (query_params : QueryDict) (db : Store)
  : result (list ProjectMembers.t) :=
  let queryset := projectmembers db in
  let email := query_params_get query_params "email" in
  let projectname := query_params_get query_params "projectname" in
  match truthy email, truthy projectname with
  | Some email, Some projectname =>
      try_except
        (user <- User_objects_get email db ;;
         project <- ProjectLead_objects_get user projectname db ;;
         Ok (filter (fun r => (ProjectMembers.project r
                               =? ProjectLead.id project)%nat)
                    (projectmembers db)))%result
        any_exception
        (fun _ => Ok queryset)
  | _, _ => Ok queryset
  end.
End ProjectMembersDisplayView.

Module PendingProjectsView.
Definition get_queryset (query_params : QueryDict) (db : Store)
  : result (list ProjectRequest.t) :=
  let queryset := projectrequests db in
  let email := query_params_get query_params "email" in
  match truthy email with
  | Some email =>
      try_except
        (user <- User_objects_get email db ;;
         Ok (filter (fun r => (ProjectRequest.member r
                               =? Users.id user)%nat)
                    (projectrequests db)))%result
        any_exception
        (fun _ => Ok queryset)
  | None => Ok queryset
  end.
End PendingProjectsView.

Module ProjectCountView.
Definition list (query_params : QueryDict) (db : Store) : result Response :=
  let email := query_params_get query_params "email" in
  match truthy email with
  | Some email =>
      match User_objects_get email db with
      | Raise (DoesNotExist Users_model) =>
          Ok (mkResponse (ErrorMessage "User not found") 404)
      | Raise e => Raise e
      | Ok user =>
          let createdprojects :=
            length (filter (fun p => (ProjectLead.owner p
                                      =? Users.id user)%nat)
                           (projectleads db)) in
          let joinedprojects :=
            length (filter (fun r => (ProjectMembers.member r
                                      =? Users.id user)%nat)
                           (projectmembers db)) in
          let pendingrequests :=
            length (filter (fun r => (ProjectRequest.member r
                                      =? Users.id user)%nat)
                           (projectrequests db)) in
          Ok (mkResponse
                (CountData createdprojects joinedprojects pendingrequests)
                200)
      end
  | None =>
      Ok (mkResponse (ErrorMessage "Email query parameter is required") 400)
  end.
End ProjectCountView.

(* ------------------------------------------------------------------ *)
(** ** accounts/views.py *)

Module RegistrationView.
(** What the unique validator of the [email] field reports: the model
    field's [unique] message, with the model's and the field's verbose
    names. *)
Definition unique_email_error : list (string * string) :=
  [("email", "users with this email already exists.")].

(** [serializer.is_valid()] of [UsersCreateSerializer].  [s] is the
    outcome of the validation that does not look at the store; since
    [Users.email] is [unique=True], the model serializer also runs a
    unique validator on the submitted email, an exact-match query on the
    users table. *)
Definition is_valid (s : serializer UsersCreateSerializer.validated_data)
           (db : Store) : serializer UsersCreateSerializer.validated_data :=
  match s with
  | Invalid errors => Invalid errors
  | Valid validated_data =>
      if existsb (fun u => Users.email u
                           =? UsersCreateSerializer.email validated_data)
                 (users db)
      then Invalid unique_email_error
      else Valid validated_data
  end.

Definition create {auth : AuthLibrary}
           (s : serializer UsersCreateSerializer.validated_data)
  : M Response :=
  fun db =>
    match is_valid s db with
    | Invalid errors => ret (mkResponse (FieldErrors errors) 400) db
    | Valid validated_data =>
        (user <- UsersCreateSerializer.create validated_data ;;
         ret (mkResponse
                (UserData (Users.firstname user) (Users.lastname user)
                          (Users.email user) (Users.frontend user)
                          (Users.backend user))
                201))%M db
    end.
End RegistrationView.

(* ------------------------------------------------------------------ *)
(** ** The routed endpoints that write, and the stores they can reach *)

Inductive post : Type :=
| POST_accounts (s : serializer UsersCreateSerializer.validated_data)
| POST_projectleads (s : serializer ProjectLeadCreateSerializer.validated_data)
| POST_projectrequests
    (s : serializer ProjectRequestCreateSerializer.validated_data)
| POST_projectmembers
    (s : serializer ProjectMemberCreateSerializer.validated_data)
| POST_projectreject
    (s : serializer ProjectRejectedCreateSerializer.validated_data).

Definition dispatch {auth : AuthLibrary} (p : post) : M Response :=
  handle_exception
    match p with
    | POST_accounts s => RegistrationView.create s
    | POST_projectleads s => ProjectLeadView.create s
    | POST_projectrequests s => ProjectRequestView.create s
    | POST_projectmembers s => ProjectMembersView.create s
    | POST_projectreject s => ProjectRejectedView.create s
    end.

(** The stores a sequence of posts builds from the empty database. *)
Inductive reachable {auth : AuthLibrary} : Store -> Prop :=
| reachable_empty : reachable empty_store
| reachable_post db p : reachable db -> reachable (snd (dispatch p db)).

(** The uniqueness constraints the models declare. *)
Record constraints_hold (db : Store) : Prop := {
  unique_email : NoDup (map Users.email (users db));
  unique_owner_projectname :
    NoDup (map ProjectLead.unique_key (projectleads db));
  unique_request :
    NoDup (map ProjectRequest.unique_key (projectrequests db));
  unique_member :
    NoDup (map ProjectMembers.unique_key (projectmembers db));
  unique_rejected :
    NoDup (map ProjectRequestRejected.unique_key (projectrejected db))
}.

(** A computation that keeps the constraints, whatever it returns. *)
Definition preserves {A} (c : M A) : Prop :=
  forall db, constraints_hold db -> constraints_hold (snd (c db)).

(** A computation that leaves the pending requests as they are. *)
Definition keeps_requests {A} (c : M A) : Prop :=
  forall db, projectrequests (snd (c db)) = projectrequests db.

(* ------------------------------------------------------------------ *)
(** ** Vocabulary of the specification *)

(** Some registered user has this email. *)
Definition registered (email : string) (db : Store) : Prop :=
  exists u, In u (users db) /\ Users.email u = email.

(** A pending JoinRequest row by [v] on [p] exists. *)
Definition has_pending_request (v : Users.t) (db : Store)
           (p : ProjectLead.t) : bool :=
  existsb (fun r => (ProjectRequest.member r =? Users.id v)%nat
                    && (ProjectRequest.project r =? ProjectLead.id p)%nat)
          (projectrequests db).

(** An accepted Membership row for [v] on [p] exists. *)
Definition has_joined (v : Users.t) (db : Store) (p : ProjectLead.t) : bool :=
  existsb (fun r => (ProjectMembers.member r =? Users.id v)%nat
                    && (ProjectMembers.project r =? ProjectLead.id p)%nat)
          (projectmembers db).

(** A RejectedRequest row for [v] on [p] exists. *)
Definition has_rejection (v : Users.t) (db : Store)
           (p : ProjectLead.t) : bool :=
  existsb (fun r => (ProjectRequestRejected.user r =? Users.id v)%nat
                    && (ProjectRequestRejected.project r
                        =? ProjectLead.id p)%nat)
          (projectrejected db).

(** The discovery listing in the specification's words: not owned by the
    viewer, no pending request by the viewer, not joined by the viewer. *)
Definition discoverable (v : Users.t) (db : Store) (p : ProjectLead.t)
  : bool :=
  negb (ProjectLead.owner p =? Users.id v)%nat
  && negb (has_pending_request v db p)
  && negb (has_joined v db p).

(** The owner of [p] is a user whose email is [email]. *)
Definition owner_has_email (email : string) (db : Store)
           (p : ProjectLead.t) : bool :=
  existsb (fun u => (Users.id u =? ProjectLead.owner p)%nat
                    && (Users.email u =? email))
          (users db).

(** The email parameter is given, and no registered user has it. *)
Definition user_lookup_fails (email : option string) (db : Store) : Prop :=
  exists e, email = Some e /\ ~ registered e db.

(** The email and projectname parameters are given, and either no
    registered user has the email or that user owns no project of the
    name. *)
Definition project_lookup_fails (email projectname : option string)
           (db : Store) : Prop :=
  exists e n,
    email = Some e /\ projectname = Some n /\
    (~ registered e db
     \/ exists u, User_objects_get e db = Ok u /\
                  forall p, In p (projectleads db) ->
                            ProjectLead.owner p = Users.id u ->
                            ProjectLead.projectname p <> n).

(** The PENDING rows of one (project, requester) pair. *)
Definition pending_rows (project member : nat) (db : Store)
  : list ProjectRequest.t :=
  filter (fun r => pair_eqb (ProjectRequest.unique_key r) (project, member))
         (projectrequests db).

(** The response is the 400 the framework gives a typed validation
    error. *)
Definition is_bad_request (r : result Response) : Prop :=
  exists d, r = Ok (mkResponse d 400).

(** The exception is a typed validation error. *)
Definition is_typed_error (e : exn) : Prop :=
  exists field message, e = ValidationError field message.

(* ------------------------------------------------------------------ *)
(** ** Vocabulary of the store's history *)

(** Every foreign key of every row points at a row that exists. *)
Record references_hold (db : Store) : Prop := {
  project_owner_exists :
    forall p, In p (projectleads db) ->
              In (ProjectLead.owner p) (map Users.id (users db));
  request_refs_exist :
    forall r, In r (projectrequests db) ->
              In (ProjectRequest.project r)
                 (map ProjectLead.id (projectleads db))
              /\ In (ProjectRequest.member r) (map Users.id (users db));
  member_refs_exist :
    forall r, In r (projectmembers db) ->
              In (ProjectMembers.project r)
                 (map ProjectLead.id (projectleads db))
              /\ In (ProjectMembers.member r) (map Users.id (users db));
  rejected_refs_exist :
    forall r, In r (projectrejected db) ->
              In (ProjectRequestRejected.project r)
                 (map ProjectLead.id (projectleads db))
              /\ In (ProjectRequestRejected.user r) (map Users.id (users db))
}.


(** The user already owns a project of this name. *)
Definition owns_project_named (owner : Users.t) (name : string) (db : Store)
  : bool :=
  existsb (fun p => (ProjectLead.owner p =? Users.id owner)%nat
                    && (ProjectLead.projectname p =? name))
          (projectleads db).

(** The exceptions that leave a view unhandled. *)
Definition is_server_error (e : exn) : bool :=
  match e with
  | IntegrityError | KeyError _ | ValueError _ | MultipleObjectsReturned _ =>
      true
  | DoesNotExist _ | ValidationError _ _ | UnboundLocalError _ => false
  end.

(** What the view and the framework make of the serializer's outcome. *)
Definition answer {A} (render : A -> payload) (outcome : result A * Store)
  : result Response * Store :=
  match outcome with
  | (Ok row, db') => (Ok (mkResponse (render row) 201), db')
  | (Raise (ValidationError field message), db') =>
      (Ok (mkResponse (FieldErrors [(field, message)]) 400), db')
  | (Raise e, db') => (Raise e, db')
  end.

(** An account as registration makes it: active, neither staff nor
    superuser, its password hashed, its email the normalized form of a
    non-empty one. *)
Definition plain_account {auth : AuthLibrary} (u : Users.t) : Prop :=
  Users.is_active u = true
  /\ Users.is_staff u = false
  /\ Users.is_superuser u = false
  /\ (exists password, Users.password u = make_password password)
  /\ (exists email, email <> "" /\ Users.email u = normalize_email email).

(** Running a sequence of posts, keeping the store. *)
Definition run_posts {auth : AuthLibrary} (ps : list post) (db : Store)
  : Store :=
  fold_left (fun d p => snd (dispatch p d)) ps db.

(* ------------------------------------------------------------------ *)
(** ** Sample data *)

Module Sample.
Definition lower_ascii (c : ascii) : ascii :=
  let n := nat_of_ascii c in
  if (65 <=? n)%nat && (n <=? 90)%nat then ascii_of_nat (n + 32) else c.

Fixpoint lower (s : string) : string :=
  match s with
  | EmptyString => EmptyString
  | String c r => String (lower_ascii c) (lower r)
  end.

Fixpoint contains_at (s : string) : bool :=
  match s with
  | EmptyString => false
  | String c r => (c =? "@")%char || contains_at r
  end.

(** Lowercases what follows the last [@], as the base manager's
    [normalize_email] does with the domain part. *)
Fixpoint lower_domain (s : string) : string :=
  match s with
  | EmptyString => EmptyString
  | String c r =>
      if contains_at r then String c (lower_domain r)
      else if (c =? "@")%char then String c (lower r)
      else String c (lower_domain r)
  end.

(** An authentication library to run the manager with: domain
    lowercasing, and a hasher that only tags the password. *)
Definition auth : AuthLibrary :=
  {| normalize_email := lower_domain;
     make_password := fun p => String.append "hash$" p |}.

Definition alice : Users.t :=
  Users.mk 1 "a@x.com" "hash$pa" "Alice" "A" true false true false false.
Definition bob : Users.t :=
  Users.mk 2 "b@x.com" "hash$pb" "Bob" "B" false true true false false.

Definition P : ProjectLead.t :=
  ProjectLead.mk 1 1 "P" "first project" true false.
Definition Q : ProjectLead.t :=
  ProjectLead.mk 2 1 "Q" "second project" false true.
Definition R : ProjectLead.t :=
  ProjectLead.mk 3 2 "R" "bob's project" false false.

(** alice owns P and Q, bob owns R; bob has a pending request on P and
    a rejection on Q. *)
Definition db : Store :=
  mkStore [alice; bob] [P; Q; R]
          [ProjectRequest.mk 1 1 2 "I am interested in joining this project"]
          []
          [ProjectRequestRejected.mk 1 2 2 "no"].

Definition join_P : ProjectRequestCreateSerializer.validated_data :=
  ProjectRequestCreateSerializer.mk "a@x.com" "P" "b@x.com" None.

Definition new_P : ProjectLeadCreateSerializer.validated_data :=
  ProjectLeadCreateSerializer.mk "a@x.com" "P" "again" (Some true)
                                 (Some false).
End Sample.

Module Scenario.
(** a@x.com and b@x.com register, a creates P, b asks to join P. *)
Definition register_a : post :=
  POST_accounts (Valid (UsersCreateSerializer.mk "A" "a" "a@X.com" "pa"
                                                 (Some true) (Some false))).
Definition register_b : post :=
  POST_accounts (Valid (UsersCreateSerializer.mk "B" "b" "b@x.com" "pb"
                                                 (Some false) (Some true))).
Definition create_P : post :=
  POST_projectleads (Valid (ProjectLeadCreateSerializer.mk
                              "a@x.com" "P" "a project" (Some true)
                              (Some false))).
Definition request_P : post :=
  POST_projectrequests (Valid (ProjectRequestCreateSerializer.mk
                                 "a@x.com" "P" "b@x.com" None)).
Definition accept_b : post :=
  POST_projectmembers (Valid (ProjectMemberCreateSerializer.mk
                                "b@x.com" "a@x.com" "P" (Some "welcome"))).
Definition reject_b : post :=
  POST_projectreject (Valid (ProjectRejectedCreateSerializer.mk
                               "b@x.com" "a@x.com" "P" (Some "sorry"))).

Definition registered_db : Store :=
  run_posts (auth := Sample.auth) [register_a; register_b] empty_store.
Definition project_db : Store :=
  run_posts (auth := Sample.auth) [create_P] registered_db.
Definition requested_db : Store :=
  run_posts (auth := Sample.auth) [request_P] project_db.
End Scenario.

(* ================================================================== *)
(** * Properties *)

(* ------------------------------------------------------------------ *)
(** ** Query set facts *)

Section QuerysetFacts.
Context {A : Type}.
Implicit Types (f g : A -> bool) (l : list A).

Lemma filter_filter f g l :
  filter f (filter g l) = filter (fun x => g x && f x) l.
Proof.
  induction l as [|a l IH]; simpl; [reflexivity|].
  destruct (g a); simpl; [destruct (f a)|]; now rewrite IH.
Qed.

Lemma filter_comm f g l : filter f (filter g l) = filter g (filter f l).
Proof.
  rewrite !filter_filter. apply filter_ext. intro a. apply andb_comm.
Qed.

Lemma filter_none f l :
  (forall a, In a l -> f a = false) -> filter f l = [].
Proof.
  induction l as [|a l IH]; simpl; intro H; [reflexivity|].
  rewrite (H a (or_introl eq_refl)). apply IH. intros b Hb. apply H. now right.
Qed.

Lemma existsb_false_forall f l :
  existsb f l = false -> forall a, In a l -> f a = false.
Proof.
  intros H a Ha. destruct (f a) eqn:E; [|reflexivity].
  rewrite <- H. symmetry. apply existsb_exists. now exists a.
Qed.

Lemma objects_get_none m f l :
  (forall a, In a l -> f a = false) ->
  objects_get m f l = Raise (DoesNotExist m).
Proof. intro H. unfold objects_get. now rewrite filter_none. Qed.

Lemma objects_get_Ok m f l x :
  objects_get m f l = Ok x -> In x l /\ f x = true.
Proof.
  unfold objects_get. intro H.
  destruct (filter f l) as [|y [|z r]] eqn:E; try discriminate.
  injection H as ->. apply filter_In. rewrite E. now left.
Qed.

(** A get never raises anything but its own two lookup errors. *)
Lemma objects_get_Raise m f l e :
  objects_get m f l = Raise e ->
  e = DoesNotExist m \/ e = MultipleObjectsReturned m.
Proof.
  unfold objects_get.
  destruct (filter f l) as [|y [|z r]]; intro H; inversion H; auto.
Qed.
End QuerysetFacts.

Lemma pair_eqb_eq a b : pair_eqb a b = true <-> a = b.
Proof.
  destruct a as [a1 a2], b as [b1 b2]. unfold pair_eqb. simpl.
  rewrite andb_true_iff, !Nat.eqb_eq. split.
  - intros [-> ->]. reflexivity.
  - intro H. inversion H. auto.
Qed.

Lemma owner_name_eqb_eq a b : owner_name_eqb a b = true <-> a = b.
Proof.
  destruct a as [a1 a2], b as [b1 b2]. unfold owner_name_eqb. simpl.
  rewrite andb_true_iff, Nat.eqb_eq, String.eqb_eq. split.
  - intros [-> ->]. reflexivity.
  - intro H. inversion H. auto.
Qed.

Lemma truthy_Some v s : truthy v = Some s -> v = Some s /\ s <> "".
Proof.
  destruct v as [t|]; simpl; [|discriminate].
  destruct (t =? "") eqn:E; [discriminate|].
  intro H. injection H as ->. split; [reflexivity|].
  intro Hs. apply String.eqb_neq in E. contradiction.
Qed.

(** [values_list("project", flat=True)] of the viewer's rows, tested with
    [id__in], is the existence of a row of the viewer on the project. *)
Lemma id_in_values_list {R : Type} (member project : R -> nat)
      (rows : list R) (uid pid : nat) :
  id_in (map project (filter (fun r => (member r =? uid)%nat) rows)) pid
  = existsb (fun r => (member r =? uid)%nat && (project r =? pid)%nat) rows.
Proof.
  unfold id_in. induction rows as [|r rows IH]; simpl; [reflexivity|].
  destruct (member r =? uid)%nat; simpl; [|exact IH].
  now rewrite IH, (Nat.eqb_sym pid).
Qed.

Lemma not_registered_get email db :
  ~ registered email db ->
  User_objects_get email db = Raise (DoesNotExist Users_model).
Proof.
  intro H. apply objects_get_none. intros u Hu.
  apply String.eqb_neq. intro He. apply H. now exists u.
Qed.

Lemma existsb_not_registered email db :
  existsb (fun u => Users.email u =? email) (users db) = false ->
  ~ registered email db.
Proof.
  intros H [u [Hu He]].
  apply (existsb_false_forall _ _ H) in Hu.
  apply String.eqb_neq in Hu. contradiction.
Qed.

Lemma registered_existsb email db :
  registered email db ->
  existsb (fun u => Users.email u =? email) (users db) = true.
Proof.
  intros [u [Hu He]]. apply existsb_exists. exists u.
  split; [assumption|]. now apply String.eqb_eq.
Qed.

Lemma skill_filter_filter fe be (f : ProjectLead.t -> bool) l :
  ProjectsDisplayView.skill_filter fe be (filter f l)
  = filter f (ProjectsDisplayView.skill_filter fe be l).
Proof.
  unfold ProjectsDisplayView.skill_filter.
  destruct (str_is fe "true" && str_is be "true"); [reflexivity|].
  destruct (str_is fe "true"); [apply filter_comm|].
  destruct (str_is be "true"); [apply filter_comm|reflexivity].
Qed.

(** The discovery listing once the viewer is found: the three exclusions
    of the code are the specification's [discoverable]. *)
Lemma discovery_found qp db email v :
  truthy (query_params_get qp "email") = Some email ->
  User_objects_get email db = Ok v ->
  ProjectsDisplayView.get_queryset qp db
  = Ok (filter (discoverable v db)
               (ProjectsDisplayView.skill_filter
                  (query_params_get qp "frontend")
                  (query_params_get qp "backend")
                  (projectleads db))).
Proof.
  intros He Hv. unfold ProjectsDisplayView.get_queryset.
  rewrite He, Hv. simpl. f_equal. unfold exclude.
  rewrite skill_filter_filter, !filter_filter.
  apply filter_ext. intro p. unfold discoverable.
  rewrite (id_in_values_list ProjectRequest.member ProjectRequest.project).
  rewrite (id_in_values_list ProjectMembers.member ProjectMembers.project).
  unfold has_pending_request, has_joined. apply andb_assoc.
Qed.

(* ------------------------------------------------------------------ *)
(** ** Discovery listing *)

(** C1. For every viewer whose email is that of a registered user, the
    discovery listing returns the projects that are not owned by the
    viewer, have no pending request by the viewer and have not been joined
    by the viewer: with the skill parameters in force these are the
    [discoverable] rows of the skill-filtered table, and with no skill
    parameter requested exactly the [discoverable] projects.  Rejections
    play no part: whatever the rejected table holds, the listing is the
    same. *)
Theorem discovery_listing_exclusions qp db email v :
  truthy (query_params_get qp "email") = Some email ->
  User_objects_get email db = Ok v ->
  ProjectsDisplayView.get_queryset qp db
  = Ok (filter (discoverable v db)
               (ProjectsDisplayView.skill_filter
                  (query_params_get qp "frontend")
                  (query_params_get qp "backend")
                  (projectleads db)))
  /\ (str_is (query_params_get qp "frontend") "true" = false ->
      str_is (query_params_get qp "backend") "true" = false ->
      ProjectsDisplayView.get_queryset qp db
      = Ok (filter (discoverable v db) (projectleads db)))
  /\ (forall rows,
        ProjectsDisplayView.get_queryset qp (set_projectrejected db rows)
        = ProjectsDisplayView.get_queryset qp db).
Proof.
  intros He Hv. split; [|split].
  - now apply discovery_found with email.
  - intros Hf Hb. rewrite (discovery_found qp db _ _ He Hv).
    unfold ProjectsDisplayView.skill_filter. now rewrite Hf, Hb.
  - intro rows. reflexivity.
Qed.

Lemma discovery_listing_exclusions_witness :
  ProjectsDisplayView.get_queryset [("email", "b@x.com")] Sample.db
  = Ok (filter (discoverable Sample.bob Sample.db)
               (ProjectsDisplayView.skill_filter
                  None None (projectleads Sample.db)))
  /\ (str_is None "true" = false ->
      str_is None "true" = false ->
      ProjectsDisplayView.get_queryset [("email", "b@x.com")] Sample.db
      = Ok (filter (discoverable Sample.bob Sample.db)
                   (projectleads Sample.db)))
  /\ (forall rows,
        ProjectsDisplayView.get_queryset [("email", "b@x.com")]
                                         (set_projectrejected Sample.db rows)
        = ProjectsDisplayView.get_queryset [("email", "b@x.com")] Sample.db).
Proof.
  apply (@discovery_listing_exclusions
           [("email", "b@x.com")] Sample.db "b@x.com" Sample.bob);
    reflexivity.
Defined.

(** bob asked to join P and was rejected from Q: P is hidden from him, Q
    is still offered. *)
Example rejected_project_still_listed :
  has_rejection Sample.bob Sample.db Sample.Q = true
  /\ ProjectsDisplayView.get_queryset [("email", "b@x.com")] Sample.db
     = Ok [Sample.Q].
Proof. split; reflexivity. Qed.

(** C8. With a valid viewer: when both skill parameters are "true" the
    listing is not restricted by either flag (it is the whole
    [discoverable] set); when only [frontend] is "true" it holds only
    projects that need frontend work, and when only [backend] is "true"
    only projects that need backend work. *)
Theorem discovery_skill_filters qp db email v :
  truthy (query_params_get qp "email") = Some email ->
  User_objects_get email db = Ok v ->
  (str_is (query_params_get qp "frontend") "true" = true ->
   str_is (query_params_get qp "backend") "true" = true ->
   ProjectsDisplayView.get_queryset qp db
   = Ok (filter (discoverable v db) (projectleads db)))
  /\ (str_is (query_params_get qp "frontend") "true" = true ->
      str_is (query_params_get qp "backend") "true" = false ->
      ProjectsDisplayView.get_queryset qp db
      = Ok (filter (discoverable v db)
                   (filter ProjectLead.frontend (projectleads db)))
      /\ forall p,
          In p (filter (discoverable v db)
                       (filter ProjectLead.frontend (projectleads db))) ->
          ProjectLead.frontend p = true)
  /\ (str_is (query_params_get qp "frontend") "true" = false ->
      str_is (query_params_get qp "backend") "true" = true ->
      ProjectsDisplayView.get_queryset qp db
      = Ok (filter (discoverable v db)
                   (filter ProjectLead.backend (projectleads db)))
      /\ forall p,
          In p (filter (discoverable v db)
                       (filter ProjectLead.backend (projectleads db))) ->
          ProjectLead.backend p = true).
Proof.
  intros He Hv. rewrite (discovery_found qp db _ _ He Hv).
  unfold ProjectsDisplayView.skill_filter.
  split; [|split]; intros Hf Hb; rewrite Hf, Hb; simpl;
    [reflexivity| |]; (split; [reflexivity|]);
    intros p Hp; apply filter_In in Hp as [Hp _];
    now apply filter_In in Hp.
Qed.

Lemma discovery_skill_filters_witness :
  ProjectsDisplayView.get_queryset
    [("email", "b@x.com"); ("frontend", "true"); ("backend", "true")]
    (set_projectrequests Sample.db [])
  = Ok [Sample.P; Sample.Q]
  /\ ProjectsDisplayView.get_queryset
       [("email", "b@x.com"); ("frontend", "true")]
       (set_projectrequests Sample.db [])
     = Ok [Sample.P]
  /\ ProjectsDisplayView.get_queryset
       [("email", "b@x.com"); ("backend", "true")]
       (set_projectrequests Sample.db [])
     = Ok [Sample.Q].
Proof.
  split; [|split].
  - exact (proj1 (@discovery_skill_filters
                    [("email", "b@x.com"); ("frontend", "true");
                     ("backend", "true")]
                    (set_projectrequests Sample.db []) "b@x.com" Sample.bob
                    eq_refl eq_refl)
                 eq_refl eq_refl).
  - exact (proj1 (proj1 (proj2 (@discovery_skill_filters
                    [("email", "b@x.com"); ("frontend", "true")]
                    (set_projectrequests Sample.db []) "b@x.com" Sample.bob
                    eq_refl eq_refl))
                 eq_refl eq_refl)).
  - exact (proj1 (proj2 (proj2 (@discovery_skill_filters
                    [("email", "b@x.com"); ("backend", "true")]
                    (set_projectrequests Sample.db []) "b@x.com" Sample.bob
                    eq_refl eq_refl))
                 eq_refl eq_refl)).
Defined.

(** C9. When the email parameter is present and non-empty but belongs to
    no registered user, the discovery listing returns no project list:
    the failed lookup is passed over, [user] is never bound, and reading
    it for the pending-request filter raises. *)
Theorem discovery_unknown_email_raises qp db email :
  truthy (query_params_get qp "email") = Some email ->
  ~ registered email db ->
  ProjectsDisplayView.get_queryset qp db = Raise (UnboundLocalError "user").
Proof.
  intros He Hn. unfold ProjectsDisplayView.get_queryset.
  rewrite He, (not_registered_get _ _ Hn). reflexivity.
Qed.

Lemma discovery_unknown_email_raises_witness :
  ProjectsDisplayView.get_queryset [("email", "nobody@x.com")] Sample.db
  = Raise (UnboundLocalError "user").
Proof.
  apply (@discovery_unknown_email_raises
           [("email", "nobody@x.com")] Sample.db "nobody@x.com").
  - reflexivity.
  - apply existsb_not_registered. reflexivity.
Defined.

(* ------------------------------------------------------------------ *)
(** ** Owned projects, scoped listings and counts *)

Lemma objects_get_Ok_only {A} m (f : A -> bool) l x :
  objects_get m f l = Ok x -> forall y, In y l -> f y = true -> y = x.
Proof.
  unfold objects_get. intros H y Hy Hf.
  destruct (filter f l) as [|z [|z' r]] eqn:E; try discriminate.
  injection H as ->.
  assert (Hin : In y (filter f l)) by (apply filter_In; auto).
  rewrite E in Hin. destruct Hin as [->|[]]. reflexivity.
Qed.

Lemma owner_filter_owner_has_email email db v :
  User_objects_get email db = Ok v ->
  forall p, (ProjectLead.owner p =? Users.id v)%nat
            = owner_has_email email db p.
Proof.
  intros Hv p. unfold owner_has_email.
  destruct (objects_get_Ok _ _ _ _ Hv) as [Hin He].
  destruct (ProjectLead.owner p =? Users.id v)%nat eqn:E; symmetry.
  - apply existsb_exists. exists v. split; [assumption|].
    rewrite He, andb_true_r. now rewrite Nat.eqb_sym.
  - destruct (existsb _ (users db)) eqn:Ex; [|reflexivity].
    apply existsb_exists in Ex as [u [Hu Hc]].
    apply andb_true_iff in Hc as [Hid Hem].
    rewrite (objects_get_Ok_only _ _ _ _ Hv u Hu Hem) in Hid.
    rewrite Nat.eqb_sym in Hid. congruence.
Qed.

(** C6, as the code has it.  When the email parameter is that of a
    registered user, the owned listing returns exactly the projects whose
    owner has that email; when it is non-empty and belongs to no
    registered user, the listing is not an error and not empty either: it
    is every project of the table. *)
Theorem list_owned_known_or_all qp db email :
  truthy (query_params_get qp "email") = Some email ->
  (forall v, User_objects_get email db = Ok v ->
             ProjectLeadView.get_queryset qp db
             = Ok (filter (owner_has_email email db) (projectleads db)))
  /\ (~ registered email db ->
      ProjectLeadView.get_queryset qp db = Ok (projectleads db)).
Proof.
  intro He. unfold ProjectLeadView.get_queryset. rewrite He. split.
  - intros v Hv. rewrite Hv. simpl. f_equal.
    apply filter_ext, (owner_filter_owner_has_email _ _ _ Hv).
  - intro Hn. now rewrite (not_registered_get _ _ Hn).
Qed.

Lemma list_owned_known_or_all_witness :
  ProjectLeadView.get_queryset [("email", "a@x.com")] Sample.db
  = Ok (filter (owner_has_email "a@x.com" Sample.db)
               (projectleads Sample.db))
  /\ ProjectLeadView.get_queryset [("email", "nobody@x.com")] Sample.db
     = Ok (projectleads Sample.db).
Proof.
  split.
  - exact (proj1 (@list_owned_known_or_all
                    [("email", "a@x.com")] Sample.db "a@x.com" eq_refl)
                 Sample.alice eq_refl).
  - apply (proj2 (@list_owned_known_or_all
                    [("email", "nobody@x.com")] Sample.db "nobody@x.com"
                    eq_refl)).
    apply existsb_not_registered. reflexivity.
Defined.

(** C6 as stated fails: an email of no registered user lists all three
    projects of the sample store, not the empty list. *)
Lemma list_owned_unknown_email_not_empty :
  ~ registered "nobody@x.com" Sample.db
  /\ ProjectLeadView.get_queryset [("email", "nobody@x.com")] Sample.db
     = Ok [Sample.P; Sample.Q; Sample.R]
  /\ ProjectLeadView.get_queryset [("email", "nobody@x.com")] Sample.db
     <> Ok [].
Proof.
  split; [|split].
  - apply existsb_not_registered. reflexivity.
  - reflexivity.
  - discriminate.
Qed.

Lemma project_lookup_fails_get e n db u :
  User_objects_get e db = Ok u ->
  (forall p, In p (projectleads db) ->
             ProjectLead.owner p = Users.id u ->
             ProjectLead.projectname p <> n) ->
  ProjectLead_objects_get u n db = Raise (DoesNotExist ProjectLead_model).
Proof.
  intros _ H. apply objects_get_none. intros p Hp.
  apply filter_In in Hp as [Hp Ho]. apply Nat.eqb_eq in Ho.
  apply String.eqb_neq. now apply H.
Qed.

(** C10. Each of the four scoped listings falls back to every row of its
    table: the two listings of an owner's project (pending requests,
    members) when email or projectname is missing or empty, or the owner
    or the project is not found; the two listings of a user (joined
    projects, pending requests) when email is missing or empty, or the
    user is not found. *)
Theorem scoped_listings_fall_back_to_all_rows qp db :
  let email := truthy (query_params_get qp "email") in
  let projectname := truthy (query_params_get qp "projectname") in
  (email = None \/ projectname = None
   \/ project_lookup_fails email projectname db ->
   ProjectRequestDisplayView.get_queryset qp db = Ok (projectrequests db)
   /\ ProjectMembersDisplayView.get_queryset qp db = Ok (projectmembers db))
  /\ (email = None \/ user_lookup_fails email db ->
      JoinedProjectDisplayView.get_queryset qp db = Ok (projectmembers db)
      /\ PendingProjectsView.get_queryset qp db = Ok (projectrequests db)).
Proof.
  intros email projectname.
  unfold ProjectRequestDisplayView.get_queryset,
    ProjectMembersDisplayView.get_queryset,
    JoinedProjectDisplayView.get_queryset,
    PendingProjectsView.get_queryset.
  fold email projectname. split.
  - intros [H|[H|(e & n & He & Hn & H)]].
    + rewrite H. auto.
    + rewrite H. destruct email; auto.
    + rewrite He, Hn. destruct H as [H|(u & Hu & H)].
      * rewrite (not_registered_get _ _ H). auto.
      * rewrite Hu. simpl.
        rewrite (@project_lookup_fails_get e n db u Hu H). auto.
  - intros [H|(e & He & H)].
    + rewrite H. auto.
    + rewrite He, (not_registered_get _ _ H). auto.
Qed.

Lemma scoped_listings_fall_back_to_all_rows_witness :
  (ProjectRequestDisplayView.get_queryset
     [("email", "b@x.com"); ("projectname", "P")] Sample.db
   = Ok (projectrequests Sample.db)
   /\ ProjectMembersDisplayView.get_queryset
        [("email", "b@x.com"); ("projectname", "P")] Sample.db
      = Ok (projectmembers Sample.db))
  /\ (JoinedProjectDisplayView.get_queryset [] Sample.db
      = Ok (projectmembers Sample.db)
      /\ PendingProjectsView.get_queryset [] Sample.db
         = Ok (projectrequests Sample.db)).
Proof.
  split.
  - apply (proj1 (@scoped_listings_fall_back_to_all_rows
                    [("email", "b@x.com"); ("projectname", "P")] Sample.db)).
    right. right. exists "b@x.com", "P". repeat split.
    right. exists Sample.bob. split; [reflexivity|].
    intros p Hp Ho. simpl in Hp.
    destruct Hp as [<-|[<-|[<-|[]]]]; simpl in *; discriminate.
  - apply (proj2 (@scoped_listings_fall_back_to_all_rows [] Sample.db)).
    left. reflexivity.
Defined.

(** C5. The counts endpoint answers 400 when the email parameter is
    missing (or empty), 404 when it belongs to no registered user, and
    otherwise 200 with the number of projects the user owns, the number
    of membership rows of the user and the number of pending request rows
    of the user, all read from the store of the call. *)
Theorem project_counts qp db :
  (truthy (query_params_get qp "email") = None ->
   ProjectCountView.list qp db
   = Ok (mkResponse (ErrorMessage "Email query parameter is required") 400))
  /\ (forall email,
        truthy (query_params_get qp "email") = Some email ->
        ~ registered email db ->
        ProjectCountView.list qp db
        = Ok (mkResponse (ErrorMessage "User not found") 404))
  /\ (forall email user,
        truthy (query_params_get qp "email") = Some email ->
        User_objects_get email db = Ok user ->
        ProjectCountView.list qp db
        = Ok (mkResponse
                (CountData
                   (length (filter (owner_has_email email db)
                                   (projectleads db)))
                   (length (filter (fun r => (ProjectMembers.member r
                                              =? Users.id user)%nat)
                                   (projectmembers db)))
                   (length (filter (fun r => (ProjectRequest.member r
                                              =? Users.id user)%nat)
                                   (projectrequests db))))
                200)).
Proof.
  unfold ProjectCountView.list. split; [|split].
  - intros ->. reflexivity.
  - intros email -> Hn. now rewrite (not_registered_get _ _ Hn).
  - intros email user -> Hu. rewrite Hu.
    now rewrite (filter_ext _ _ (owner_filter_owner_has_email _ _ _ Hu)).
Qed.

Lemma project_counts_witness :
  ProjectCountView.list [] Sample.db
  = Ok (mkResponse (ErrorMessage "Email query parameter is required") 400)
  /\ ProjectCountView.list [("email", "nobody@x.com")] Sample.db
     = Ok (mkResponse (ErrorMessage "User not found") 404)
  /\ ProjectCountView.list [("email", "b@x.com")] Sample.db
     = Ok (mkResponse (CountData 1 0 1) 200).
Proof.
  split; [|split].
  - exact (proj1 (@project_counts [] Sample.db) eq_refl).
  - apply (proj1 (proj2 (@project_counts
                           [("email", "nobody@x.com")] Sample.db))
                 "nobody@x.com" eq_refl).
    apply existsb_not_registered. reflexivity.
  - exact (proj2 (proj2 (@project_counts [("email", "b@x.com")] Sample.db))
                 "b@x.com" Sample.bob eq_refl eq_refl).
Defined.

(* ------------------------------------------------------------------ *)
(** ** Uniqueness constraints *)

Section Uniqueness.
Context {A K : Type} (key : A -> K) (eqb : K -> K -> bool).
Hypothesis eqb_eq : forall a b, eqb a b = true <-> a = b.

Lemma NoDup_snoc (l : list K) k : NoDup l -> ~ In k l -> NoDup (l ++ [k]).
Proof.
  induction 1 as [|x l Hx Hl IH]; simpl; intro Hk.
  - constructor; [intros []|constructor].
  - constructor.
    + rewrite in_app_iff. intros [H|[H|[]]]; [contradiction|].
      subst. apply Hk. now left.
    + apply IH. intro H. apply Hk. now right.
Qed.

Lemma insert_keeps_unique l row :
  NoDup (map key l) ->
  existsb (fun r => eqb (key r) (key row)) l = false ->
  NoDup (map key (l ++ [row])).
Proof.
  intros Hl Hex. rewrite map_app. simpl. apply NoDup_snoc; [assumption|].
  intro Hin. apply in_map_iff in Hin as [r [Hr Hin]].
  apply (existsb_false_forall _ _ Hex) in Hin.
  apply eqb_eq in Hr. congruence.
Qed.

Lemma unique_at_most_one l k :
  NoDup (map key l) -> length (filter (fun r => eqb (key r) k) l) <= 1.
Proof.
  induction l as [|a l IH]; simpl; intro H; [lia|].
  inversion H as [|? ? Ha Hl]; subst.
  destruct (eqb (key a) k) eqn:E; [|now apply IH].
  apply eqb_eq in E. subst k. rewrite filter_none; [simpl; lia|].
  intros b Hb. destruct (eqb (key b) (key a)) eqn:Eb; [|reflexivity].
  apply eqb_eq in Eb. exfalso. apply Ha. rewrite <- Eb. now apply in_map.
Qed.

Lemma filter_nonempty_existsb (f : A -> bool) l :
  filter f l <> [] -> existsb f l = true.
Proof.
  intro H. destruct (filter f l) as [|a r] eqn:E; [contradiction|].
  assert (Ha : In a (filter f l)) by (rewrite E; now left).
  apply filter_In in Ha. apply existsb_exists. now exists a.
Qed.
End Uniqueness.

(* ------------------------------------------------------------------ *)
(** ** The monad's operations keep what their parts keep *)

Lemma preserves_ret {A} (a : A) : preserves (ret a).
Proof. intros db H. exact H. Qed.

Lemma preserves_raise {A} e : preserves (@raise A e).
Proof. intros db H. exact H. Qed.

Lemma preserves_lift {A} (r : result A) : preserves (lift r).
Proof. intros db H. exact H. Qed.

Lemma preserves_query {A} (q : Store -> result A) : preserves (query q).
Proof. intros db H. exact H. Qed.

Lemma preserves_bind {A B} (c : M A) (k : A -> M B) :
  preserves c -> (forall a, preserves (k a)) -> preserves (bind c k).
Proof.
  intros Hc Hk db H. unfold bind. specialize (Hc db H).
  destruct (c db) as [[a|e] db']; simpl in *; [now apply Hk|assumption].
Qed.

Lemma preserves_handle_exception (c : M Response) :
  preserves c -> preserves (handle_exception c).
Proof.
  intros Hc db H. unfold handle_exception. specialize (Hc db H).
  destruct (c db) as [[a|[]] db']; simpl in *; assumption.
Qed.

Lemma keeps_requests_ret {A} (a : A) : keeps_requests (ret a).
Proof. intro db. reflexivity. Qed.

Lemma keeps_requests_raise {A} e : keeps_requests (@raise A e).
Proof. intro db. reflexivity. Qed.

Lemma keeps_requests_lift {A} (r : result A) : keeps_requests (lift r).
Proof. intro db. reflexivity. Qed.

Lemma keeps_requests_query {A} (q : Store -> result A) :
  keeps_requests (query q).
Proof. intro db. reflexivity. Qed.

Lemma keeps_requests_bind {A B} (c : M A) (k : A -> M B) :
  keeps_requests c -> (forall a, keeps_requests (k a)) ->
  keeps_requests (bind c k).
Proof.
  intros Hc Hk db. unfold bind. specialize (Hc db).
  destruct (c db) as [[a|e] db']; simpl in *; [|assumption].
  now rewrite Hk.
Qed.

Lemma keeps_requests_handle_exception (c : M Response) :
  keeps_requests c -> keeps_requests (handle_exception c).
Proof.
  intros Hc db. unfold handle_exception. specialize (Hc db).
  destruct (c db) as [[a|[]] db']; simpl in *; assumption.
Qed.

(** Each insert keeps every constraint: it refuses the row that would
    repeat a key. *)
Lemma preserves_Users_save user : preserves (Users_save user).
Proof.
  intros db [H1 H2 H3 H4 H5]. unfold Users_save.
  destruct (existsb _ (users db)) eqn:E; simpl; constructor; simpl; auto.
  apply (insert_keeps_unique Users.email String.eqb String.eqb_eq); auto.
Qed.

Lemma preserves_ProjectLead_objects_create owner name descr fe be :
  preserves (ProjectLead_objects_create owner name descr fe be).
Proof.
  intros db [H1 H2 H3 H4 H5]. unfold ProjectLead_objects_create.
  destruct (existsb _ (projectleads db)) eqn:E; simpl; constructor; simpl;
    auto.
  apply (insert_keeps_unique ProjectLead.unique_key owner_name_eqb
                             owner_name_eqb_eq); auto.
Qed.

Lemma preserves_ProjectRequest_objects_create project member message :
  preserves (ProjectRequest_objects_create project member message).
Proof.
  intros db [H1 H2 H3 H4 H5]. unfold ProjectRequest_objects_create.
  destruct (existsb _ (projectrequests db)) eqn:E; simpl; constructor; simpl;
    auto.
  apply (insert_keeps_unique ProjectRequest.unique_key pair_eqb
                             pair_eqb_eq); auto.
Qed.

Lemma preserves_ProjectMembers_objects_create project member message :
  preserves (ProjectMembers_objects_create project member message).
Proof.
  intros db [H1 H2 H3 H4 H5]. unfold ProjectMembers_objects_create.
  destruct (existsb _ (projectmembers db)) eqn:E; simpl; constructor; simpl;
    auto.
  apply (insert_keeps_unique ProjectMembers.unique_key pair_eqb
                             pair_eqb_eq); auto.
Qed.

Lemma preserves_ProjectRequestRejected_objects_create project user message :
  preserves (ProjectRequestRejected_objects_create project user message).
Proof.
  intros db [H1 H2 H3 H4 H5]. unfold ProjectRequestRejected_objects_create.
  destruct (existsb _ (projectrejected db)) eqn:E; simpl; constructor; simpl;
    auto.
  apply (insert_keeps_unique ProjectRequestRejected.unique_key pair_eqb
                             pair_eqb_eq); auto.
Qed.

Lemma keeps_requests_ProjectMembers_objects_create project member message :
  keeps_requests (ProjectMembers_objects_create project member message).
Proof.
  intro db. unfold ProjectMembers_objects_create.
  now destruct (existsb _ (projectmembers db)).
Qed.

Lemma keeps_requests_ProjectRequestRejected_objects_create
      project user message :
  keeps_requests (ProjectRequestRejected_objects_create project user message).
Proof.
  intro db. unfold ProjectRequestRejected_objects_create.
  now destruct (existsb _ (projectrejected db)).
Qed.

Create HintDb store.
#[export] Hint Resolve preserves_ret preserves_raise preserves_lift
  preserves_query preserves_bind preserves_handle_exception
  preserves_Users_save preserves_ProjectLead_objects_create
  preserves_ProjectRequest_objects_create
  preserves_ProjectMembers_objects_create
  preserves_ProjectRequestRejected_objects_create
  keeps_requests_ret keeps_requests_raise keeps_requests_lift
  keeps_requests_query keeps_requests_bind keeps_requests_handle_exception
  keeps_requests_ProjectMembers_objects_create
  keeps_requests_ProjectRequestRejected_objects_create : store.

Section Reachable.
Context {auth : AuthLibrary}.

Lemma preserves_create_user email password extra :
  preserves (UserManager.create_user email password extra).
Proof.
  unfold UserManager.create_user.
  destruct (email =? ""); [apply preserves_raise|].
  intros db H. now apply preserves_Users_save.
Qed.

Lemma preserves_registration s : preserves (RegistrationView.create s).
Proof.
  pose proof preserves_create_user.
  intros db Hdb. unfold RegistrationView.create.
  destruct (RegistrationView.is_valid s db) as [e|vd]; [exact Hdb|].
  match goal with
  | |- constraints_hold (snd (?c db)) =>
      assert (Hp : preserves c)
        by (unfold UsersCreateSerializer.create; auto 12 with store)
  end.
  exact (Hp db Hdb).
Qed.

Lemma preserves_dispatch p : preserves (dispatch p).
Proof.
  pose proof preserves_registration.
  destruct p as [s|[e|vd]|[e|vd]|[e|vd]|[e|vd]];
    unfold dispatch, ProjectLeadView.create,
      ProjectRequestView.create, ProjectMembersView.create,
      ProjectRejectedView.create, UsersCreateSerializer.create,
      ProjectLeadCreateSerializer.create,
      ProjectRequestCreateSerializer.create,
      ProjectMemberCreateSerializer.create,
      ProjectRejectedCreateSerializer.create,
      get_user_or_invalid, get_project_or_invalid;
    auto 12 with store.
Qed.

Lemma reachable_constraints db : reachable db -> constraints_hold db.
Proof.
  induction 1 as [|db p _ IH].
  - constructor; simpl; constructor.
  - now apply preserves_dispatch.
Qed.
End Reachable.

(* ------------------------------------------------------------------ *)
(** ** The serializers' lookups *)

Lemma get_user_or_invalid_found email field message db u :
  User_objects_get email db = Ok u ->
  get_user_or_invalid email field message db = (Ok u, db).
Proof. intro H. unfold get_user_or_invalid, query. now rewrite H. Qed.

Lemma get_user_or_invalid_missing email field message db :
  ~ registered email db ->
  get_user_or_invalid email field message db
  = (Raise (ValidationError field message), db).
Proof.
  intro H. unfold get_user_or_invalid, query.
  now rewrite (not_registered_get _ _ H).
Qed.

Lemma get_project_or_invalid_found owner name field message db p :
  ProjectLead_objects_get owner name db = Ok p ->
  get_project_or_invalid owner name field message db = (Ok p, db).
Proof. intro H. unfold get_project_or_invalid, query. now rewrite H. Qed.

Lemma joined_existsb (v : Users.t) db (p : ProjectLead.t) :
  existsb (fun r => pair_eqb (ProjectMembers.unique_key r)
                             (ProjectLead.id p, Users.id v))
          (projectmembers db)
  = has_joined v db p.
Proof.
  unfold has_joined. induction (projectmembers db) as [|r l IH]; simpl;
    [reflexivity|].
  rewrite IH. f_equal. apply andb_comm.
Qed.

Lemma rejection_existsb (v : Users.t) db (p : ProjectLead.t) :
  existsb (fun r => pair_eqb (ProjectRequestRejected.unique_key r)
                             (ProjectLead.id p, Users.id v))
          (projectrejected db)
  = has_rejection v db p.
Proof.
  unfold has_rejection. induction (projectrejected db) as [|r l IH]; simpl;
    [reflexivity|].
  rewrite IH. f_equal. apply andb_comm.
Qed.

(* ------------------------------------------------------------------ *)
(** ** Join requests *)

(** C2, as the code has it.  When a PENDING row of the (project,
    requester) pair exists, a second request for the same pair fails, but
    not with a typed error and not as a 400: the insert is refused by the
    store's uniqueness constraint with its generic integrity error, which
    neither the serializer nor the view turns into a response, and the
    store is left as it was.  In every store the endpoints can build, a
    pair has at most one PENDING row. *)
Theorem duplicate_request_integrity_error {auth : AuthLibrary}
        vd db owner member project :
  User_objects_get (ProjectRequestCreateSerializer.owner_email vd) db
  = Ok owner ->
  User_objects_get (ProjectRequestCreateSerializer.member_email vd) db
  = Ok member ->
  ProjectLead_objects_get owner
                          (ProjectRequestCreateSerializer.projectname vd) db
  = Ok project ->
  pending_rows (ProjectLead.id project) (Users.id member) db <> [] ->
  ProjectRequestCreateSerializer.create vd db = (Raise IntegrityError, db)
  /\ dispatch (POST_projectrequests (Valid vd)) db = (Raise IntegrityError, db)
  /\ (forall db', reachable db' ->
                  forall p m, length (pending_rows p m db') <= 1).
Proof.
  intros Ho Hm Hp Hdup.
  assert (Hc : ProjectRequestCreateSerializer.create vd db
               = (Raise IntegrityError, db)).
  { unfold ProjectRequestCreateSerializer.create, bind.
    rewrite (get_user_or_invalid_found _ _ _ _ _ Ho).
    rewrite (get_user_or_invalid_found _ _ _ _ _ Hm).
    rewrite (get_project_or_invalid_found _ _ _ _ _ _ Hp).
    unfold ProjectRequest_objects_create. cbv zeta.
    match goal with
    | |- context [existsb ?f ?l] => replace (existsb f l) with true
    end; [reflexivity|].
    symmetry. exact (filter_nonempty_existsb _ _ Hdup). }
  split; [exact Hc|split].
  - unfold dispatch, handle_exception, ProjectRequestView.create, bind.
    now rewrite Hc.
  - intros db' Hr p m. unfold pending_rows.
    apply (unique_at_most_one ProjectRequest.unique_key pair_eqb pair_eqb_eq).
    apply (reachable_constraints _ Hr).
Qed.

Lemma duplicate_request_integrity_error_witness :
  ProjectRequestCreateSerializer.create Sample.join_P Sample.db
  = (Raise IntegrityError, Sample.db)
  /\ dispatch (auth := Sample.auth)
              (POST_projectrequests (Valid Sample.join_P)) Sample.db
     = (Raise IntegrityError, Sample.db)
  /\ (forall db', reachable (auth := Sample.auth) db' ->
                  forall p m, length (pending_rows p m db') <= 1).
Proof.
  apply (@duplicate_request_integrity_error
           Sample.auth Sample.join_P Sample.db
           Sample.alice Sample.bob Sample.P);
    try reflexivity.
  discriminate.
Defined.

(** C2 as stated fails: bob already has a PENDING row on P; his second
    request is answered neither by a typed error nor by a 400. *)
Lemma duplicate_request_not_bad_request :
  pending_rows 1 2 Sample.db <> []
  /\ fst (ProjectRequestCreateSerializer.create Sample.join_P Sample.db)
     = Raise IntegrityError
  /\ ~ is_typed_error IntegrityError
  /\ ~ is_bad_request
       (fst (dispatch (auth := Sample.auth)
                      (POST_projectrequests (Valid Sample.join_P))
                      Sample.db)).
Proof.
  repeat split.
  - discriminate.
  - intros (f & m & H). discriminate.
  - intros (d & H). discriminate.
Qed.

(** The first request, on a store without the row, is accepted and
    answered 201. *)
Example first_request_created :
  fst (dispatch (auth := Sample.auth)
                (POST_projectrequests (Valid Sample.join_P))
                (set_projectrequests Sample.db []))
  = Ok (mkResponse (MessageData "I am interested in joining this project")
                   201).
Proof. reflexivity. Qed.

(* ------------------------------------------------------------------ *)
(** ** Creating projects *)

(** C4, as the code has it.  When the owner already has a project of the
    name, creating it again fails, but not with a typed error: the insert
    is refused by the store's (owner, projectname) constraint with its
    generic integrity error and no project is added.  When no registered
    user has the owner email the serializer fails with the validation
    error keyed on [email]. *)
Theorem create_project_failures vd db :
  (forall owner fe be,
      User_objects_get (ProjectLeadCreateSerializer.email vd) db = Ok owner ->
      ProjectLeadCreateSerializer.frontend vd = Some fe ->
      ProjectLeadCreateSerializer.backend vd = Some be ->
      (exists p, In p (projectleads db)
                 /\ ProjectLead.owner p = Users.id owner
                 /\ ProjectLead.projectname p
                    = ProjectLeadCreateSerializer.projectname vd) ->
      ProjectLeadCreateSerializer.create vd db = (Raise IntegrityError, db))
  /\ (~ registered (ProjectLeadCreateSerializer.email vd) db ->
      ProjectLeadCreateSerializer.create vd db
      = (Raise (ValidationError "email" "User with this email does not exist"),
         db)).
Proof.
  unfold ProjectLeadCreateSerializer.create, bind. split.
  - intros owner fe be Ho Hfe Hbe (p & Hin & Hown & Hname).
    rewrite (get_user_or_invalid_found _ _ _ _ _ Ho), Hfe, Hbe. simpl.
    unfold ProjectLead_objects_create. simpl.
    replace (existsb _ (projectleads db)) with true; [reflexivity|].
    symmetry. apply existsb_exists. exists p. split; [assumption|].
    apply owner_name_eqb_eq. unfold ProjectLead.unique_key. simpl.
    now rewrite Hown, Hname.
  - intro Hn. now rewrite (get_user_or_invalid_missing _ _ _ _ Hn).
Qed.

Lemma create_project_failures_witness :
  ProjectLeadCreateSerializer.create Sample.new_P Sample.db
  = (Raise IntegrityError, Sample.db)
  /\ ProjectLeadCreateSerializer.create
       (ProjectLeadCreateSerializer.mk "nobody@x.com" "N" "d" None None)
       Sample.db
     = (Raise (ValidationError "email" "User with this email does not exist"),
        Sample.db).
Proof.
  split.
  - apply (proj1 (create_project_failures Sample.new_P Sample.db)
                 Sample.alice true false eq_refl eq_refl eq_refl).
    exists Sample.P. repeat split. left. reflexivity.
  - apply (proj2 (create_project_failures
                    (ProjectLeadCreateSerializer.mk "nobody@x.com" "N" "d"
                                                    None None)
                    Sample.db)).
    apply existsb_not_registered. reflexivity.
Defined.

(** C4 as stated fails: alice already owns P; creating P again for her
    raises the store's integrity error, which is not a typed error. *)
Lemma duplicate_project_not_typed :
  In Sample.P (projectleads Sample.db)
  /\ ProjectLead.owner Sample.P = Users.id Sample.alice
  /\ fst (ProjectLeadCreateSerializer.create Sample.new_P Sample.db)
     = Raise IntegrityError
  /\ ~ is_typed_error IntegrityError.
Proof.
  repeat split.
  - left. reflexivity.
  - intros (f & m & H). discriminate.
Qed.

(* ------------------------------------------------------------------ *)
(** ** Accepting and rejecting *)

Ltac unfold_accept_reject :=
  unfold ProjectMemberCreateSerializer.create,
    ProjectRejectedCreateSerializer.create, bind, lift, query,
    get_user_or_invalid, get_project_or_invalid,
    ProjectMembers_objects_create, ProjectRequestRejected_objects_create.

Ltac break_match :=
  match goal with
  | |- context [match ?x with _ => _ end] => destruct x eqn:?; simpl
  end.

Lemma accept_ignores_requests vd db rows :
  fst (ProjectMemberCreateSerializer.create vd (set_projectrequests db rows))
  = fst (ProjectMemberCreateSerializer.create vd db).
Proof.
  unfold_accept_reject.
  unfold User_objects_get, ProjectLead_objects_get. simpl.
  repeat break_match; reflexivity.
Qed.

Lemma reject_ignores_requests vd db rows :
  fst (ProjectRejectedCreateSerializer.create vd
         (set_projectrequests db rows))
  = fst (ProjectRejectedCreateSerializer.create vd db).
Proof.
  unfold_accept_reject.
  unfold User_objects_get, ProjectLead_objects_get. simpl.
  repeat break_match; reflexivity.
Qed.

(** C3. Accepting and rejecting do not look at the pending requests and
    do not touch them: whatever the endpoint answers, the JoinRequest
    table after it is the table before it; the serializer's outcome is
    the same on any other table of pending requests; and with owner,
    member and project found, a message supplied and no earlier row of
    the pair in its own table, accept (reject) inserts its row, pending
    request or not. *)
Theorem accept_reject_independent_of_pending {auth : AuthLibrary} :
  (forall s db,
      projectrequests (snd (dispatch (POST_projectmembers s) db))
      = projectrequests db)
  /\ (forall s db,
         projectrequests (snd (dispatch (POST_projectreject s) db))
         = projectrequests db)
  /\ (forall vd db rows,
         fst (ProjectMemberCreateSerializer.create
                vd (set_projectrequests db rows))
         = fst (ProjectMemberCreateSerializer.create vd db))
  /\ (forall vd db rows,
         fst (ProjectRejectedCreateSerializer.create
                vd (set_projectrequests db rows))
         = fst (ProjectRejectedCreateSerializer.create vd db))
  /\ (forall vd db owner member project message,
         User_objects_get (ProjectMemberCreateSerializer.owner vd) db
         = Ok owner ->
         User_objects_get (ProjectMemberCreateSerializer.email vd) db
         = Ok member ->
         ProjectLead_objects_get
           owner (ProjectMemberCreateSerializer.projectname vd) db
         = Ok project ->
         ProjectMemberCreateSerializer.message vd = Some message ->
         has_joined member db project = false ->
         let row := ProjectMembers.mk
                      (next_id (map ProjectMembers.id (projectmembers db)))
                      (ProjectLead.id project) (Users.id member) message in
         ProjectMemberCreateSerializer.create vd db
         = (Ok row, set_projectmembers db (projectmembers db ++ [row])))
  /\ (forall vd db owner member project message,
         User_objects_get (ProjectRejectedCreateSerializer.owner vd) db
         = Ok owner ->
         User_objects_get (ProjectRejectedCreateSerializer.email vd) db
         = Ok member ->
         ProjectLead_objects_get
           owner (ProjectRejectedCreateSerializer.projectname vd) db
         = Ok project ->
         ProjectRejectedCreateSerializer.message vd = Some message ->
         has_rejection member db project = false ->
         let row := ProjectRequestRejected.mk
                      (next_id (map ProjectRequestRejected.id
                                    (projectrejected db)))
                      (ProjectLead.id project) (Users.id member) message in
         ProjectRejectedCreateSerializer.create vd db
         = (Ok row, set_projectrejected db (projectrejected db ++ [row]))).
Proof.
  split; [|split; [|split; [|split; [|split]]]].
  - intros [e|vd] db;
      apply (keeps_requests_handle_exception
               (ProjectMembersView.create _));
      unfold ProjectMembersView.create, ProjectMemberCreateSerializer.create,
        get_user_or_invalid, get_project_or_invalid;
      auto 12 with store.
  - intros [e|vd] db;
      apply (keeps_requests_handle_exception
               (ProjectRejectedView.create _));
      unfold ProjectRejectedView.create,
        ProjectRejectedCreateSerializer.create,
        get_user_or_invalid, get_project_or_invalid;
      auto 12 with store.
  - exact accept_ignores_requests.
  - exact reject_ignores_requests.
  - intros vd db owner member project message Ho Hm Hp Hmsg Hnew row.
    unfold ProjectMemberCreateSerializer.create, bind.
    rewrite (get_user_or_invalid_found _ _ _ _ _ Ho).
    rewrite (get_user_or_invalid_found _ _ _ _ _ Hm).
    rewrite (get_project_or_invalid_found _ _ _ _ _ _ Hp).
    rewrite Hmsg. unfold lift, getitem, ProjectMembers_objects_create.
    cbv zeta.
    match goal with
    | |- context [existsb ?f ?l] => replace (existsb f l) with false
    end; [reflexivity|].
    rewrite <- Hnew. symmetry. exact (joined_existsb member db project).
  - intros vd db owner member project message Ho Hm Hp Hmsg Hnew row.
    unfold ProjectRejectedCreateSerializer.create, bind.
    rewrite (get_user_or_invalid_found _ _ _ _ _ Ho).
    rewrite (get_user_or_invalid_found _ _ _ _ _ Hm).
    rewrite (get_project_or_invalid_found _ _ _ _ _ _ Hp).
    rewrite Hmsg.
    unfold lift, getitem, ProjectRequestRejected_objects_create.
    cbv zeta.
    match goal with
    | |- context [existsb ?f ?l] => replace (existsb f l) with false
    end; [reflexivity|].
    rewrite <- Hnew. symmetry. exact (rejection_existsb member db project).
Qed.

(** With the table of pending requests emptied, bob has asked for
    nothing: he is accepted into Q, and rejected from P, all the same. *)
Lemma accept_reject_independent_of_pending_witness :
  ProjectMemberCreateSerializer.create
    (ProjectMemberCreateSerializer.mk "b@x.com" "a@x.com" "Q" (Some "welcome"))
    (set_projectrequests Sample.db [])
  = (Ok (ProjectMembers.mk 1 2 2 "welcome"),
     set_projectmembers (set_projectrequests Sample.db [])
                        [ProjectMembers.mk 1 2 2 "welcome"])
  /\ ProjectRejectedCreateSerializer.create
       (ProjectRejectedCreateSerializer.mk "b@x.com" "a@x.com" "P"
                                           (Some "sorry"))
       (set_projectrequests Sample.db [])
     = (Ok (ProjectRequestRejected.mk 2 1 2 "sorry"),
        set_projectrejected
          (set_projectrequests Sample.db [])
          [ProjectRequestRejected.mk 1 2 2 "no";
           ProjectRequestRejected.mk 2 1 2 "sorry"]).
Proof.
  split.
  - exact (proj1 (proj2 (proj2 (proj2 (proj2
             (@accept_reject_independent_of_pending Sample.auth)))))
             (ProjectMemberCreateSerializer.mk "b@x.com" "a@x.com" "Q"
                                               (Some "welcome"))
             (set_projectrequests Sample.db [])
             Sample.alice Sample.bob Sample.Q "welcome"
             eq_refl eq_refl eq_refl eq_refl eq_refl).
  - exact (proj2 (proj2 (proj2 (proj2 (proj2
             (@accept_reject_independent_of_pending Sample.auth)))))
             (ProjectRejectedCreateSerializer.mk "b@x.com" "a@x.com" "P"
                                                 (Some "sorry"))
             (set_projectrequests Sample.db [])
             Sample.alice Sample.bob Sample.P "sorry"
             eq_refl eq_refl eq_refl eq_refl eq_refl).
Defined.

(* ------------------------------------------------------------------ *)
(** ** Registration *)

Section Registration.
Context {auth : AuthLibrary}.

Lemma create_user_duplicate email password extra db :
  email <> "" -> registered (normalize_email email) db ->
  UserManager.create_user email password extra db
  = (Raise IntegrityError, db).
Proof.
  intros He Hr. unfold UserManager.create_user.
  apply String.eqb_neq in He. rewrite He.
  unfold Users_save. simpl.
  now rewrite (registered_existsb _ _ Hr).
Qed.

Lemma create_user_new email password extra db :
  email <> "" -> ~ registered (normalize_email email) db ->
  let user := UserManager.model (next_id (map Users.id (users db)))
                                (normalize_email email) password extra in
  UserManager.create_user email password extra db
  = (Ok user, set_users db (users db ++ [user])).
Proof.
  intros He Hn user. unfold UserManager.create_user.
  apply String.eqb_neq in He. rewrite He.
  unfold Users_save. simpl.
  destruct (existsb _ (users db)) eqn:E; [|reflexivity].
  exfalso. apply Hn. apply existsb_exists in E as [u [Hu Hem]].
  exists u. split; [assumption|]. now apply String.eqb_eq.
Qed.

End Registration.




(* ================================================================== *)
(** * Further properties of the code *)

(* ------------------------------------------------------------------ *)
(** ** What a lookup and an insert can do *)

Lemma get_user_or_invalid_cases email field message db :
  (exists u, User_objects_get email db = Ok u
             /\ get_user_or_invalid email field message db = (Ok u, db))
  \/ (User_objects_get email db = Raise (DoesNotExist Users_model)
      /\ get_user_or_invalid email field message db
         = (Raise (ValidationError field message), db))
  \/ (User_objects_get email db = Raise (MultipleObjectsReturned Users_model)
      /\ get_user_or_invalid email field message db
         = (Raise (MultipleObjectsReturned Users_model), db)).
Proof.
  unfold get_user_or_invalid, query.
  destruct (User_objects_get email db) as [u|e] eqn:E.
  - left. now exists u.
  - right. unfold User_objects_get in E.
    apply objects_get_Raise in E as [-> | ->]; [left|right]; now split.
Qed.

Lemma get_project_or_invalid_cases owner name field message db :
  (exists p, ProjectLead_objects_get owner name db = Ok p
             /\ get_project_or_invalid owner name field message db
                = (Ok p, db))
  \/ (ProjectLead_objects_get owner name db
      = Raise (DoesNotExist ProjectLead_model)
      /\ get_project_or_invalid owner name field message db
         = (Raise (ValidationError field message), db))
  \/ (ProjectLead_objects_get owner name db
      = Raise (MultipleObjectsReturned ProjectLead_model)
      /\ get_project_or_invalid owner name field message db
         = (Raise (MultipleObjectsReturned ProjectLead_model), db)).
Proof.
  unfold get_project_or_invalid, query.
  destruct (ProjectLead_objects_get owner name db) as [p|e] eqn:E.
  - left. now exists p.
  - right. unfold ProjectLead_objects_get in E.
    apply objects_get_Raise in E as [-> | ->]; [left|right]; now split.
Qed.

Lemma pending_existsb (v : Users.t) db (p : ProjectLead.t) :
  existsb (fun r => pair_eqb (ProjectRequest.unique_key r)
                             (ProjectLead.id p, Users.id v))
          (projectrequests db)
  = has_pending_request v db p.
Proof.
  unfold has_pending_request.
  induction (projectrequests db) as [|r l IH]; simpl; [reflexivity|].
  rewrite IH. f_equal. apply andb_comm.
Qed.

Ltac raises_typed :=
  left; eexists; split; [reflexivity|right; now do 2 eexists].
Ltac raises_server :=
  left; eexists; split; [reflexivity|now left].

(** The outcomes of the four inserts of the projects application: a raise
    that leaves the store alone, or the one new row. *)
Lemma request_create_cases vd db :
  (exists e, ProjectRequestCreateSerializer.create vd db = (Raise e, db)
             /\ (is_server_error e = true \/ is_typed_error e))
  \/ (exists owner member project,
         User_objects_get (ProjectRequestCreateSerializer.owner_email vd) db
         = Ok owner
         /\ User_objects_get
              (ProjectRequestCreateSerializer.member_email vd) db
            = Ok member
         /\ ProjectLead_objects_get
              owner (ProjectRequestCreateSerializer.projectname vd) db
            = Ok project
         /\ has_pending_request member db project = false
         /\ ProjectRequestCreateSerializer.create vd db
            = (Ok (ProjectRequest.mk
                     (next_id (map ProjectRequest.id (projectrequests db)))
                     (ProjectLead.id project) (Users.id member)
                     (get_default
                        (ProjectRequestCreateSerializer.message vd)
                        "I am interested in joining this project")),
               set_projectrequests
                 db
                 (projectrequests db
                  ++ [ProjectRequest.mk
                        (next_id (map ProjectRequest.id (projectrequests db)))
                        (ProjectLead.id project) (Users.id member)
                        (get_default
                           (ProjectRequestCreateSerializer.message vd)
                           "I am interested in joining this project")]))).
Proof.
  unfold ProjectRequestCreateSerializer.create, bind.
  destruct (get_user_or_invalid_cases
              (ProjectRequestCreateSerializer.owner_email vd) "owner_email"
              "Owner with this email does not exist." db)
    as [(owner & Ho & ->)|[[_ ->]|[_ ->]]];
    [|raises_typed|raises_server].
  destruct (get_user_or_invalid_cases
              (ProjectRequestCreateSerializer.member_email vd) "member_email"
              "Member with this email does not exist." db)
    as [(member & Hm & ->)|[[_ ->]|[_ ->]]];
    [|raises_typed|raises_server].
  destruct (get_project_or_invalid_cases
              owner (ProjectRequestCreateSerializer.projectname vd)
              "projectname" "This project does not exist." db)
    as [(project & Hp & ->)|[[_ ->]|[_ ->]]];
    [|raises_typed|raises_server].
  unfold ProjectRequest_objects_create. cbv zeta.
  pose proof (pending_existsb member db project) as Hex.
  destruct (has_pending_request member db project) eqn:Hpend.
  - left. exists IntegrityError. split; [|now left].
    match goal with
    | |- context [existsb ?f ?l] =>
        replace (existsb f l) with true by (symmetry; exact Hex)
    end. reflexivity.
  - right. exists owner, member, project. repeat split; try assumption.
    match goal with
    | |- context [existsb ?f ?l] =>
        replace (existsb f l) with false by (symmetry; exact Hex)
    end. reflexivity.
Qed.

Lemma accept_create_cases vd db :
  (exists e, ProjectMemberCreateSerializer.create vd db = (Raise e, db)
             /\ (is_server_error e = true \/ is_typed_error e))
  \/ (exists owner member project message,
         User_objects_get (ProjectMemberCreateSerializer.owner vd) db
         = Ok owner
         /\ User_objects_get (ProjectMemberCreateSerializer.email vd) db
            = Ok member
         /\ ProjectLead_objects_get
              owner (ProjectMemberCreateSerializer.projectname vd) db
            = Ok project
         /\ ProjectMemberCreateSerializer.message vd = Some message
         /\ has_joined member db project = false
         /\ ProjectMemberCreateSerializer.create vd db
            = (Ok (ProjectMembers.mk
                     (next_id (map ProjectMembers.id (projectmembers db)))
                     (ProjectLead.id project) (Users.id member) message),
               set_projectmembers
                 db
                 (projectmembers db
                  ++ [ProjectMembers.mk
                        (next_id (map ProjectMembers.id (projectmembers db)))
                        (ProjectLead.id project) (Users.id member)
                        message]))).
Proof.
  unfold ProjectMemberCreateSerializer.create, bind.
  destruct (get_user_or_invalid_cases
              (ProjectMemberCreateSerializer.owner vd) "owner"
              "Owner with this email does not exist" db)
    as [(owner & Ho & ->)|[[_ ->]|[_ ->]]];
    [|raises_typed|raises_server].
  destruct (get_user_or_invalid_cases
              (ProjectMemberCreateSerializer.email vd) "member"
              "Member with this email does not exist" db)
    as [(member & Hm & ->)|[[_ ->]|[_ ->]]];
    [|raises_typed|raises_server].
  destruct (get_project_or_invalid_cases
              owner (ProjectMemberCreateSerializer.projectname vd)
              "project" "This project does not exist" db)
    as [(project & Hp & ->)|[[_ ->]|[_ ->]]];
    [|raises_typed|raises_server].
  destruct (ProjectMemberCreateSerializer.message vd) as [message|] eqn:Hmsg;
    simpl; [|raises_server].
  unfold ProjectMembers_objects_create. cbv zeta.
  pose proof (joined_existsb member db project) as Hex.
  destruct (has_joined member db project) eqn:Hj.
  - left. exists IntegrityError. split; [|now left].
    match goal with
    | |- context [existsb ?f ?l] =>
        replace (existsb f l) with true by (symmetry; exact Hex)
    end. reflexivity.
  - right. exists owner, member, project, message.
    repeat split; try assumption.
    match goal with
    | |- context [existsb ?f ?l] =>
        replace (existsb f l) with false by (symmetry; exact Hex)
    end. reflexivity.
Qed.

Lemma reject_create_cases vd db :
  (exists e, ProjectRejectedCreateSerializer.create vd db = (Raise e, db)
             /\ (is_server_error e = true \/ is_typed_error e))
  \/ (exists owner member project message,
         User_objects_get (ProjectRejectedCreateSerializer.owner vd) db
         = Ok owner
         /\ User_objects_get (ProjectRejectedCreateSerializer.email vd) db
            = Ok member
         /\ ProjectLead_objects_get
              owner (ProjectRejectedCreateSerializer.projectname vd) db
            = Ok project
         /\ ProjectRejectedCreateSerializer.message vd = Some message
         /\ has_rejection member db project = false
         /\ ProjectRejectedCreateSerializer.create vd db
            = (Ok (ProjectRequestRejected.mk
                     (next_id (map ProjectRequestRejected.id
                                   (projectrejected db)))
                     (ProjectLead.id project) (Users.id member) message),
               set_projectrejected
                 db
                 (projectrejected db
                  ++ [ProjectRequestRejected.mk
                        (next_id (map ProjectRequestRejected.id
                                      (projectrejected db)))
                        (ProjectLead.id project) (Users.id member)
                        message]))).
Proof.
  unfold ProjectRejectedCreateSerializer.create, bind.
  destruct (get_user_or_invalid_cases
              (ProjectRejectedCreateSerializer.owner vd) "owner"
              "Owner with this email does not exist" db)
    as [(owner & Ho & ->)|[[_ ->]|[_ ->]]];
    [|raises_typed|raises_server].
  destruct (get_user_or_invalid_cases
              (ProjectRejectedCreateSerializer.email vd) "member"
              "Member with this email does not exist" db)
    as [(member & Hm & ->)|[[_ ->]|[_ ->]]];
    [|raises_typed|raises_server].
  destruct (get_project_or_invalid_cases
              owner (ProjectRejectedCreateSerializer.projectname vd)
              "project" "This project does not exist" db)
    as [(project & Hp & ->)|[[_ ->]|[_ ->]]];
    [|raises_typed|raises_server].
  destruct (ProjectRejectedCreateSerializer.message vd) as [message|]
    eqn:Hmsg; simpl; [|raises_server].
  unfold ProjectRequestRejected_objects_create. cbv zeta.
  pose proof (rejection_existsb member db project) as Hex.
  destruct (has_rejection member db project) eqn:Hj.
  - left. exists IntegrityError. split; [|now left].
    match goal with
    | |- context [existsb ?f ?l] =>
        replace (existsb f l) with true by (symmetry; exact Hex)
    end. reflexivity.
  - right. exists owner, member, project, message.
    repeat split; try assumption.
    match goal with
    | |- context [existsb ?f ?l] =>
        replace (existsb f l) with false by (symmetry; exact Hex)
    end. reflexivity.
Qed.

Lemma project_create_cases vd db :
  (exists e, ProjectLeadCreateSerializer.create vd db = (Raise e, db)
             /\ (is_server_error e = true \/ is_typed_error e))
  \/ (exists owner fe be,
         User_objects_get (ProjectLeadCreateSerializer.email vd) db = Ok owner
         /\ ProjectLeadCreateSerializer.frontend vd = Some fe
         /\ ProjectLeadCreateSerializer.backend vd = Some be
         /\ owns_project_named
              owner (ProjectLeadCreateSerializer.projectname vd) db = false
         /\ ProjectLeadCreateSerializer.create vd db
            = (Ok (ProjectLead.mk
                     (next_id (map ProjectLead.id (projectleads db)))
                     (Users.id owner)
                     (ProjectLeadCreateSerializer.projectname vd)
                     (ProjectLeadCreateSerializer.description vd) fe be),
               set_projectleads
                 db
                 (projectleads db
                  ++ [ProjectLead.mk
                        (next_id (map ProjectLead.id (projectleads db)))
                        (Users.id owner)
                        (ProjectLeadCreateSerializer.projectname vd)
                        (ProjectLeadCreateSerializer.description vd)
                        fe be]))).
Proof.
  unfold ProjectLeadCreateSerializer.create, bind.
  destruct (get_user_or_invalid_cases
              (ProjectLeadCreateSerializer.email vd) "email"
              "User with this email does not exist" db)
    as [(owner & Ho & ->)|[[_ ->]|[_ ->]]];
    [|raises_typed|raises_server].
  destruct (ProjectLeadCreateSerializer.frontend vd) as [fe|] eqn:Hfe;
    simpl; [|raises_server].
  destruct (ProjectLeadCreateSerializer.backend vd) as [be|] eqn:Hbe;
    simpl; [|raises_server].
  unfold ProjectLead_objects_create. cbv zeta.
  assert (Hex : existsb
                  (fun p => owner_name_eqb
                              (ProjectLead.unique_key p)
                              (Users.id owner,
                               ProjectLeadCreateSerializer.projectname vd))
                  (projectleads db)
                = owns_project_named
                    owner (ProjectLeadCreateSerializer.projectname vd) db)
    by reflexivity.
  destruct (owns_project_named _ _ db) eqn:Hown.
  - left. exists IntegrityError. split; [|now left].
    match goal with
    | |- context [existsb ?f ?l] =>
        replace (existsb f l) with true by (symmetry; exact Hex)
    end. reflexivity.
  - right. exists owner, fe, be. repeat split; try assumption.
    match goal with
    | |- context [existsb ?f ?l] =>
        replace (existsb f l) with false by (symmetry; exact Hex)
    end. reflexivity.
Qed.

Lemma register_create_cases {auth : AuthLibrary} vd db :
  (exists e, UsersCreateSerializer.create vd db = (Raise e, db)
             /\ is_server_error e = true)
  \/ (exists fe be,
         UsersCreateSerializer.frontend vd = Some fe
         /\ UsersCreateSerializer.backend vd = Some be
         /\ UsersCreateSerializer.email vd <> ""
         /\ ~ registered (normalize_email (UsersCreateSerializer.email vd)) db
         /\ UsersCreateSerializer.create vd db
            = (Ok (Users.mk (next_id (map Users.id (users db)))
                            (normalize_email (UsersCreateSerializer.email vd))
                            (make_password (UsersCreateSerializer.password vd))
                            (UsersCreateSerializer.firstname vd)
                            (UsersCreateSerializer.lastname vd)
                            fe be true false false),
               set_users
                 db
                 (users db
                  ++ [Users.mk
                        (next_id (map Users.id (users db)))
                        (normalize_email (UsersCreateSerializer.email vd))
                        (make_password (UsersCreateSerializer.password vd))
                        (UsersCreateSerializer.firstname vd)
                        (UsersCreateSerializer.lastname vd)
                        fe be true false false]))).
Proof.
  unfold UsersCreateSerializer.create, bind, lift.
  destruct (UsersCreateSerializer.frontend vd) as [fe|] eqn:Hfe;
    simpl; [|left; eexists; split; reflexivity].
  destruct (UsersCreateSerializer.backend vd) as [be|] eqn:Hbe;
    simpl; [|left; eexists; split; reflexivity].
  unfold UserManager.create_user.
  destruct (UsersCreateSerializer.email vd =? "") eqn:He;
    [left; eexists; split; reflexivity|].
  apply String.eqb_neq in He.
  unfold Users_save, UserManager.model. simpl.
  destruct (existsb _ (users db)) eqn:Hex;
    [left; eexists; split; reflexivity|].
  right. exists fe, be. repeat split; try assumption.
  now apply existsb_not_registered.
Qed.

(* ------------------------------------------------------------------ *)
(** ** A post and the insert behind it *)

Lemma dispatch_Invalid {auth : AuthLibrary} p db :
  match p with
  | POST_accounts (Invalid e) | POST_projectleads (Invalid e)
  | POST_projectrequests (Invalid e) | POST_projectmembers (Invalid e)
  | POST_projectreject (Invalid e) =>
      dispatch p db = (Ok (mkResponse (FieldErrors e) 400), db)
  | _ => True
  end.
Proof. destruct p as [[e|vd]|[e|vd]|[e|vd]|[e|vd]|[e|vd]]; now trivial. Qed.

Lemma dispatch_accounts {auth : AuthLibrary} vd db :
  dispatch (POST_accounts (Valid vd)) db
  = if existsb (fun u => Users.email u =? UsersCreateSerializer.email vd)
               (users db)
    then (Ok (mkResponse (FieldErrors RegistrationView.unique_email_error)
                         400), db)
    else answer (fun u => UserData (Users.firstname u) (Users.lastname u)
                                   (Users.email u) (Users.frontend u)
                                   (Users.backend u))
                (UsersCreateSerializer.create vd db).
Proof.
  unfold dispatch, handle_exception, RegistrationView.create,
    RegistrationView.is_valid, bind, ret, answer.
  destruct (existsb _ (users db)); [reflexivity|].
  now destruct (UsersCreateSerializer.create vd db) as [[u|[]] db'].
Qed.

Lemma dispatch_accounts_stored {auth : AuthLibrary} vd db :
  registered (UsersCreateSerializer.email vd) db ->
  dispatch (POST_accounts (Valid vd)) db
  = (Ok (mkResponse (FieldErrors RegistrationView.unique_email_error) 400),
     db).
Proof.
  intro H. rewrite dispatch_accounts.
  now rewrite (registered_existsb _ _ H).
Qed.

Lemma dispatch_accounts_new {auth : AuthLibrary} vd db :
  ~ registered (UsersCreateSerializer.email vd) db ->
  dispatch (POST_accounts (Valid vd)) db
  = answer (fun u => UserData (Users.firstname u) (Users.lastname u)
                              (Users.email u) (Users.frontend u)
                              (Users.backend u))
           (UsersCreateSerializer.create vd db).
Proof.
  intro H. rewrite dispatch_accounts.
  destruct (existsb _ (users db)) eqn:E; [|reflexivity].
  exfalso. apply H. apply existsb_exists in E as [u [Hu He]].
  exists u. split; [assumption|]. now apply String.eqb_eq.
Qed.

Lemma dispatch_projectleads {auth : AuthLibrary} vd db :
  dispatch (POST_projectleads (Valid vd)) db
  = answer (fun p => ProjectLeadData (ProjectLead.projectname p)
                                     (ProjectLead.description p)
                                     (ProjectLead.frontend p)
                                     (ProjectLead.backend p))
           (ProjectLeadCreateSerializer.create vd db).
Proof.
  unfold dispatch, handle_exception, ProjectLeadView.create, bind, ret,
    answer.
  now destruct (ProjectLeadCreateSerializer.create vd db) as [[u|[]] db'].
Qed.

Lemma dispatch_projectrequests {auth : AuthLibrary} vd db :
  dispatch (POST_projectrequests (Valid vd)) db
  = answer (fun r => MessageData (ProjectRequest.message r))
           (ProjectRequestCreateSerializer.create vd db).
Proof.
  unfold dispatch, handle_exception, ProjectRequestView.create, bind, ret,
    answer.
  now destruct (ProjectRequestCreateSerializer.create vd db) as [[u|[]] db'].
Qed.

Lemma dispatch_projectmembers {auth : AuthLibrary} vd db :
  dispatch (POST_projectmembers (Valid vd)) db
  = answer (fun r => MessageData (ProjectMembers.message r))
           (ProjectMemberCreateSerializer.create vd db).
Proof.
  unfold dispatch, handle_exception, ProjectMembersView.create, bind, ret,
    answer.
  now destruct (ProjectMemberCreateSerializer.create vd db) as [[u|[]] db'].
Qed.

Lemma dispatch_projectreject {auth : AuthLibrary} vd db :
  dispatch (POST_projectreject (Valid vd)) db
  = answer (fun r => MessageData (ProjectRequestRejected.message r))
           (ProjectRejectedCreateSerializer.create vd db).
Proof.
  unfold dispatch, handle_exception, ProjectRejectedView.create, bind, ret,
    answer.
  now destruct (ProjectRejectedCreateSerializer.create vd db) as [[u|[]] db'].
Qed.

Lemma answer_raise {A} (render : A -> payload) e db :
  is_server_error e = true \/ is_typed_error e ->
  (exists d, answer render (Raise e, db) = (Ok (mkResponse d 400), db))
  \/ (answer render (Raise e, db) = (Raise e, db)
      /\ is_server_error e = true).
Proof.
  intros [H|(f & m & ->)].
  - right. destruct e; try discriminate; now split.
  - left. now eexists.
Qed.


(* ------------------------------------------------------------------ *)
(** ** Stores built by posts *)

Lemma reachable_run_posts {auth : AuthLibrary} ps db :
  reachable db -> reachable (run_posts ps db).
Proof.
  revert db. induction ps as [|p ps IH]; intros db H; [exact H|].
  simpl. apply IH. now constructor.
Qed.

Lemma objects_get_at_most_one {A} m (f : A -> bool) l :
  length (filter f l) <= 1 ->
  (existsb f l = true /\ exists x, objects_get m f l = Ok x)
  \/ (existsb f l = false /\ objects_get m f l = Raise (DoesNotExist m)).
Proof.
  intro Hlen. unfold objects_get.
  destruct (filter f l) as [|x [|y r]] eqn:E.
  - right. split; [|reflexivity].
    destruct (existsb f l) eqn:Ex; [|reflexivity].
    apply existsb_exists in Ex as [a [Ha Hf]].
    assert (Hin : In a (filter f l)) by (apply filter_In; auto).
    rewrite E in Hin. destruct Hin.
  - left. split; [|now exists x].
    apply existsb_exists. exists x. apply filter_In. rewrite E. now left.
  - simpl in Hlen. lia.
Qed.

Lemma existsb_filter {A} (f g : A -> bool) l :
  existsb f (filter g l) = existsb (fun x => g x && f x) l.
Proof.
  induction l as [|a l IH]; simpl; [reflexivity|].
  destruct (g a); simpl; now rewrite IH.
Qed.

Lemma user_lookup_under_constraints email db :
  constraints_hold db ->
  (registered email db /\ exists u, User_objects_get email db = Ok u)
  \/ (~ registered email db
      /\ User_objects_get email db = Raise (DoesNotExist Users_model)).
Proof.
  intros [H _ _ _ _].
  destruct (objects_get_at_most_one
              Users_model (fun u => Users.email u =? email) (users db)
              (unique_at_most_one Users.email String.eqb String.eqb_eq
                                  (users db) email H))
    as [[Hex Hget]|[Hex Hget]]; [left|right]; split; try assumption.
  - apply existsb_exists in Hex as [u [Hu He]]. exists u.
    split; [assumption|]. now apply String.eqb_eq.
  - now apply existsb_not_registered.
Qed.

Lemma project_lookup_under_constraints owner name db :
  constraints_hold db ->
  (owns_project_named owner name db = true
   /\ exists p, ProjectLead_objects_get owner name db = Ok p)
  \/ (owns_project_named owner name db = false
      /\ ProjectLead_objects_get owner name db
         = Raise (DoesNotExist ProjectLead_model)).
Proof.
  intros [_ H _ _ _].
  unfold owns_project_named, ProjectLead_objects_get.
  rewrite <- existsb_filter.
  apply objects_get_at_most_one. rewrite filter_filter.
  exact (unique_at_most_one ProjectLead.unique_key owner_name_eqb
                            owner_name_eqb_eq (projectleads db)
                            (Users.id owner, name) H).
Qed.

(** X2. In every store the endpoints can build, lookups are never
    ambiguous: the user lookup by email finds a user exactly when one is
    registered with the email and otherwise reports that there is none,
    and the lookup of an owner's project by name finds a project exactly
    when the owner has one of the name and otherwise reports that there is
    none. *)
Theorem reachable_lookups_unambiguous {auth : AuthLibrary} db :
  reachable db ->
  (forall email,
      (registered email db /\ exists u, User_objects_get email db = Ok u)
      \/ (~ registered email db
          /\ User_objects_get email db = Raise (DoesNotExist Users_model)))
  /\ (forall owner name,
         (owns_project_named owner name db = true
          /\ exists p, ProjectLead_objects_get owner name db = Ok p)
         \/ (owns_project_named owner name db = false
             /\ ProjectLead_objects_get owner name db
                = Raise (DoesNotExist ProjectLead_model))).
Proof.
  intro H. apply reachable_constraints in H. split.
  - intro email. now apply user_lookup_under_constraints.
  - intros owner name. now apply project_lookup_under_constraints.
Qed.

Lemma reachable_lookups_unambiguous_witness :
  (forall email,
      (registered email Scenario.requested_db
       /\ exists u, User_objects_get email Scenario.requested_db = Ok u)
      \/ (~ registered email Scenario.requested_db
          /\ User_objects_get email Scenario.requested_db
             = Raise (DoesNotExist Users_model)))
  /\ (forall owner name,
         (owns_project_named owner name Scenario.requested_db = true
          /\ exists p, ProjectLead_objects_get owner name
                                               Scenario.requested_db = Ok p)
         \/ (owns_project_named owner name Scenario.requested_db = false
             /\ ProjectLead_objects_get owner name Scenario.requested_db
                = Raise (DoesNotExist ProjectLead_model))).
Proof.
  apply (@reachable_lookups_unambiguous Sample.auth Scenario.requested_db).
  apply (@reachable_run_posts
           Sample.auth
           [Scenario.register_a; Scenario.register_b; Scenario.create_P;
            Scenario.request_P]
           empty_store).
  apply reachable_empty.
Defined.

Lemma answer_snd {A} (render : A -> payload) (o : result A * Store) :
  snd (answer render o) = snd o.
Proof. now destruct o as [[a|[]] db]. Qed.

Lemma dispatch_store {auth : AuthLibrary} p db :
  snd (dispatch p db)
  = match p with
    | POST_accounts (Valid vd) =>
        if existsb (fun u => Users.email u =? UsersCreateSerializer.email vd)
                   (users db)
        then db
        else snd (UsersCreateSerializer.create vd db)
    | POST_projectleads (Valid vd) =>
        snd (ProjectLeadCreateSerializer.create vd db)
    | POST_projectrequests (Valid vd) =>
        snd (ProjectRequestCreateSerializer.create vd db)
    | POST_projectmembers (Valid vd) =>
        snd (ProjectMemberCreateSerializer.create vd db)
    | POST_projectreject (Valid vd) =>
        snd (ProjectRejectedCreateSerializer.create vd db)
    | _ => db
    end.
Proof.
  destruct p as [[e|vd]|[e|vd]|[e|vd]|[e|vd]|[e|vd]]; try reflexivity.
  - rewrite dispatch_accounts.
    destruct (existsb _ (users db)); [reflexivity|apply answer_snd].
  - rewrite dispatch_projectleads. apply answer_snd.
  - rewrite dispatch_projectrequests. apply answer_snd.
  - rewrite dispatch_projectmembers. apply answer_snd.
  - rewrite dispatch_projectreject. apply answer_snd.
Qed.

Lemma in_map_snoc {A B} (f : A -> B) l a b :
  In b (map f l) -> In b (map f (l ++ [a])).
Proof. intro H. rewrite map_app. apply in_or_app. now left. Qed.

Lemma user_found_id email db u :
  User_objects_get email db = Ok u -> In (Users.id u) (map Users.id (users db)).
Proof.
  intro H. apply objects_get_Ok in H as [H _]. now apply in_map.
Qed.

Lemma project_found_id owner name db p :
  ProjectLead_objects_get owner name db = Ok p ->
  In (ProjectLead.id p) (map ProjectLead.id (projectleads db))
  /\ ProjectLead.owner p = Users.id owner
  /\ ProjectLead.projectname p = name.
Proof.
  intro H. apply objects_get_Ok in H as [H Hn].
  apply filter_In in H as [H Ho].
  repeat split; [now apply in_map|now apply Nat.eqb_eq|now apply String.eqb_eq].
Qed.

Lemma references_dispatch {auth : AuthLibrary} p db :
  references_hold db -> references_hold (snd (dispatch p db)).
Proof.
  intros [H1 H2 H3 H4]. rewrite dispatch_store.
  destruct p as [[e|vd]|[e|vd]|[e|vd]|[e|vd]|[e|vd]];
    try (constructor; assumption).
  - destruct (existsb _ (users db)); [constructor; assumption|].
    destruct (register_create_cases vd db)
      as [(e & -> & _)|(fe & be & _ & _ & _ & _ & ->)];
      [constructor; assumption|].
    constructor; simpl.
    + intros p Hp. now apply in_map_snoc, H1.
    + intros r Hr. destruct (H2 r Hr). split; [|apply in_map_snoc]; auto.
    + intros r Hr. destruct (H3 r Hr). split; [|apply in_map_snoc]; auto.
    + intros r Hr. destruct (H4 r Hr). split; [|apply in_map_snoc]; auto.
  - destruct (project_create_cases vd db)
      as [(e & -> & _)|(o & fe & be & Ho & _ & _ & _ & ->)];
      [constructor; assumption|].
    constructor; simpl.
    + intros p Hp. apply in_app_or in Hp as [Hp|[<-|[]]]; [now apply H1|].
      simpl. now apply user_found_id with (ProjectLeadCreateSerializer.email vd).
    + intros r Hr. destruct (H2 r Hr). split; [apply in_map_snoc|]; auto.
    + intros r Hr. destruct (H3 r Hr). split; [apply in_map_snoc|]; auto.
    + intros r Hr. destruct (H4 r Hr). split; [apply in_map_snoc|]; auto.
  - destruct (request_create_cases vd db)
      as [(e & -> & _)|(o & m & pr & Ho & Hm & Hp & _ & ->)];
      [constructor; assumption|].
    constructor; simpl; try assumption.
    intros r Hr. apply in_app_or in Hr as [Hr|[<-|[]]]; [now apply H2|].
    simpl. split.
    + now apply (project_found_id _ _ _ _ Hp).
    + now apply (user_found_id _ _ _ Hm).
  - destruct (accept_create_cases vd db)
      as [(e & -> & _)|(o & m & pr & msg & Ho & Hm & Hp & _ & _ & ->)];
      [constructor; assumption|].
    constructor; simpl; try assumption.
    intros r Hr. apply in_app_or in Hr as [Hr|[<-|[]]]; [now apply H3|].
    simpl. split.
    + now apply (project_found_id _ _ _ _ Hp).
    + now apply (user_found_id _ _ _ Hm).
  - destruct (reject_create_cases vd db)
      as [(e & -> & _)|(o & m & pr & msg & Ho & Hm & Hp & _ & _ & ->)];
      [constructor; assumption|].
    constructor; simpl; try assumption.
    intros r Hr. apply in_app_or in Hr as [Hr|[<-|[]]]; [now apply H4|].
    simpl. split.
    + now apply (project_found_id _ _ _ _ Hp).
    + now apply (user_found_id _ _ _ Hm).
Qed.

(** X3. In every store the endpoints can build, every foreign key points
    at an existing row: each project's owner is a user of the store, and
    each pending request, membership and rejection names a project and a
    user of the store. *)
Theorem reachable_references {auth : AuthLibrary} db :
  reachable db -> references_hold db.
Proof.
  induction 1 as [|db p _ IH].
  - constructor; simpl; intros ? [].
  - now apply references_dispatch.
Qed.

Lemma reachable_references_witness :
  references_hold Scenario.requested_db.
Proof.
  apply (@reachable_references Sample.auth Scenario.requested_db).
  apply (@reachable_run_posts
           Sample.auth
           [Scenario.register_a; Scenario.register_b; Scenario.create_P;
            Scenario.request_P]
           empty_store).
  apply reachable_empty.
Defined.

(* ------------------------------------------------------------------ *)
(** ** The inserts once the lookups have succeeded *)

Lemma request_create_found vd db owner member project :
  User_objects_get (ProjectRequestCreateSerializer.owner_email vd) db
  = Ok owner ->
  User_objects_get (ProjectRequestCreateSerializer.member_email vd) db
  = Ok member ->
  ProjectLead_objects_get
    owner (ProjectRequestCreateSerializer.projectname vd) db
  = Ok project ->
  ProjectRequestCreateSerializer.create vd db
  = if has_pending_request member db project
    then (Raise IntegrityError, db)
    else
      let row := ProjectRequest.mk
                   (next_id (map ProjectRequest.id (projectrequests db)))
                   (ProjectLead.id project) (Users.id member)
                   (get_default (ProjectRequestCreateSerializer.message vd)
                                "I am interested in joining this project") in
      (Ok row, set_projectrequests db (projectrequests db ++ [row])).
Proof.
  intros Ho Hm Hp. unfold ProjectRequestCreateSerializer.create, bind.
  rewrite (get_user_or_invalid_found _ _ _ _ _ Ho).
  rewrite (get_user_or_invalid_found _ _ _ _ _ Hm).
  rewrite (get_project_or_invalid_found _ _ _ _ _ _ Hp).
  rewrite <- pending_existsb. reflexivity.
Qed.

Lemma accept_create_found vd db owner member project message :
  User_objects_get (ProjectMemberCreateSerializer.owner vd) db = Ok owner ->
  User_objects_get (ProjectMemberCreateSerializer.email vd) db = Ok member ->
  ProjectLead_objects_get
    owner (ProjectMemberCreateSerializer.projectname vd) db
  = Ok project ->
  ProjectMemberCreateSerializer.message vd = Some message ->
  ProjectMemberCreateSerializer.create vd db
  = if has_joined member db project
    then (Raise IntegrityError, db)
    else
      let row := ProjectMembers.mk
                   (next_id (map ProjectMembers.id (projectmembers db)))
                   (ProjectLead.id project) (Users.id member) message in
      (Ok row, set_projectmembers db (projectmembers db ++ [row])).
Proof.
  intros Ho Hm Hp Hmsg. unfold ProjectMemberCreateSerializer.create, bind.
  rewrite (get_user_or_invalid_found _ _ _ _ _ Ho).
  rewrite (get_user_or_invalid_found _ _ _ _ _ Hm).
  rewrite (get_project_or_invalid_found _ _ _ _ _ _ Hp).
  rewrite Hmsg, <- joined_existsb. reflexivity.
Qed.

Lemma reject_create_found vd db owner member project message :
  User_objects_get (ProjectRejectedCreateSerializer.owner vd) db = Ok owner ->
  User_objects_get (ProjectRejectedCreateSerializer.email vd) db
  = Ok member ->
  ProjectLead_objects_get
    owner (ProjectRejectedCreateSerializer.projectname vd) db
  = Ok project ->
  ProjectRejectedCreateSerializer.message vd = Some message ->
  ProjectRejectedCreateSerializer.create vd db
  = if has_rejection member db project
    then (Raise IntegrityError, db)
    else
      let row := ProjectRequestRejected.mk
                   (next_id (map ProjectRequestRejected.id
                                 (projectrejected db)))
                   (ProjectLead.id project) (Users.id member) message in
      (Ok row, set_projectrejected db (projectrejected db ++ [row])).
Proof.
  intros Ho Hm Hp Hmsg. unfold ProjectRejectedCreateSerializer.create, bind.
  rewrite (get_user_or_invalid_found _ _ _ _ _ Ho).
  rewrite (get_user_or_invalid_found _ _ _ _ _ Hm).
  rewrite (get_project_or_invalid_found _ _ _ _ _ _ Hp).
  rewrite Hmsg, <- rejection_existsb. reflexivity.
Qed.

Lemma project_create_found vd db owner fe be :
  User_objects_get (ProjectLeadCreateSerializer.email vd) db = Ok owner ->
  ProjectLeadCreateSerializer.frontend vd = Some fe ->
  ProjectLeadCreateSerializer.backend vd = Some be ->
  ProjectLeadCreateSerializer.create vd db
  = if owns_project_named
         owner (ProjectLeadCreateSerializer.projectname vd) db
    then (Raise IntegrityError, db)
    else
      let row := ProjectLead.mk
                   (next_id (map ProjectLead.id (projectleads db)))
                   (Users.id owner)
                   (ProjectLeadCreateSerializer.projectname vd)
                   (ProjectLeadCreateSerializer.description vd) fe be in
      (Ok row, set_projectleads db (projectleads db ++ [row])).
Proof.
  intros Ho Hfe Hbe. unfold ProjectLeadCreateSerializer.create, bind.
  rewrite (get_user_or_invalid_found _ _ _ _ _ Ho), Hfe, Hbe. reflexivity.
Qed.

Lemma project_lookup_none owner name db :
  owns_project_named owner name db = false ->
  ProjectLead_objects_get owner name db
  = Raise (DoesNotExist ProjectLead_model).
Proof.
  intro H. apply objects_get_none. intros p Hp.
  apply filter_In in Hp as [Hp Ho].
  apply (existsb_false_forall _ _ H) in Hp. rewrite Ho in Hp. exact Hp.
Qed.

Lemma get_project_or_invalid_missing owner name field message db :
  owns_project_named owner name db = false ->
  get_project_or_invalid owner name field message db
  = (Raise (ValidationError field message), db).
Proof.
  intro H. unfold get_project_or_invalid, query.
  now rewrite (project_lookup_none _ _ _ H).
Qed.

(* ------------------------------------------------------------------ *)
(** ** Asking to join *)

(** X4. A first request goes through.  With the owner, the requester and
    the owner's project found and no pending row of the pair, the post is
    answered 201 with the message, which is the supplied one or, when
    none is supplied, "I am interested in joining this project"; the new
    row is then the one pending row of the pair, and the requester's
    pending listing is the old listing followed by the new row. *)
Theorem request_join_first {auth : AuthLibrary} vd db owner member project :
  User_objects_get (ProjectRequestCreateSerializer.owner_email vd) db
  = Ok owner ->
  User_objects_get (ProjectRequestCreateSerializer.member_email vd) db
  = Ok member ->
  ProjectLead_objects_get
    owner (ProjectRequestCreateSerializer.projectname vd) db
  = Ok project ->
  has_pending_request member db project = false ->
  let message := get_default (ProjectRequestCreateSerializer.message vd)
                             "I am interested in joining this project" in
  let row := ProjectRequest.mk
               (next_id (map ProjectRequest.id (projectrequests db)))
               (ProjectLead.id project) (Users.id member) message in
  let db' := set_projectrequests db (projectrequests db ++ [row]) in
  dispatch (POST_projectrequests (Valid vd)) db
  = (Ok (mkResponse (MessageData message) 201), db')
  /\ pending_rows (ProjectLead.id project) (Users.id member) db' = [row]
  /\ (forall qp old,
         truthy (query_params_get qp "email")
         = Some (ProjectRequestCreateSerializer.member_email vd) ->
         PendingProjectsView.get_queryset qp db = Ok old ->
         PendingProjectsView.get_queryset qp db' = Ok (old ++ [row])).
Proof.
  intros Ho Hm Hp Hnew message row db'. split; [|split].
  - rewrite dispatch_projectrequests.
    rewrite (request_create_found _ _ _ _ _ Ho Hm Hp), Hnew. reflexivity.
  - unfold pending_rows, db', set_projectrequests. cbn [projectrequests].
    rewrite filter_app. simpl.
    unfold pair_eqb at 2. simpl. rewrite !Nat.eqb_refl. simpl.
    rewrite filter_none; [reflexivity|].
    rewrite <- pending_existsb in Hnew.
    exact (existsb_false_forall _ _ Hnew).
  - intros qp old He. unfold PendingProjectsView.get_queryset.
    rewrite He. unfold db', set_projectrequests, User_objects_get in *.
    cbn [users projectrequests]. rewrite Hm. simpl.
    intro Hold. injection Hold as <-.
    rewrite filter_app. simpl. now rewrite Nat.eqb_refl.
Qed.

Lemma request_join_first_witness :
  dispatch (auth := Sample.auth) Scenario.request_P Scenario.project_db
  = (Ok (mkResponse (MessageData "I am interested in joining this project")
                    201),
     Scenario.requested_db)
  /\ pending_rows 1 2 Scenario.requested_db
     = [ProjectRequest.mk 1 1 2 "I am interested in joining this project"]
  /\ (forall qp old,
         truthy (query_params_get qp "email") = Some "b@x.com" ->
         PendingProjectsView.get_queryset qp Scenario.project_db = Ok old ->
         PendingProjectsView.get_queryset qp Scenario.requested_db
         = Ok (old ++ [ProjectRequest.mk
                         1 1 2 "I am interested in joining this project"])).
Proof.
  exact (@request_join_first
           Sample.auth
           (ProjectRequestCreateSerializer.mk "a@x.com" "P" "b@x.com" None)
           Scenario.project_db
           (Users.mk 1 "a@x.com" "hash$pa" "A" "a" true false true false false)
           (Users.mk 2 "b@x.com" "hash$pb" "B" "b" false true true false false)
           (ProjectLead.mk 1 1 "P" "a project" true false)
           eq_refl eq_refl eq_refl eq_refl).
Defined.

(** X5. A request is validated owner first, then requester, then
    project, and only the first failure is reported: an unknown owner is
    answered 400 on [owner_email] whatever the rest is; with the owner
    found, an unknown requester is answered 400 on [member_email]; with
    both found, an owner without a project of the name is answered 400 on
    [projectname].  The store is untouched each time. *)
Theorem request_join_validation_order {auth : AuthLibrary} vd db :
  (~ registered (ProjectRequestCreateSerializer.owner_email vd) db ->
   dispatch (POST_projectrequests (Valid vd)) db
   = (Ok (mkResponse
            (FieldErrors [("owner_email",
                           "Owner with this email does not exist.")])
            400), db))
  /\ (forall owner,
         User_objects_get (ProjectRequestCreateSerializer.owner_email vd) db
         = Ok owner ->
         ~ registered (ProjectRequestCreateSerializer.member_email vd) db ->
         dispatch (POST_projectrequests (Valid vd)) db
         = (Ok (mkResponse
                  (FieldErrors [("member_email",
                                 "Member with this email does not exist.")])
                  400), db))
  /\ (forall owner member,
         User_objects_get (ProjectRequestCreateSerializer.owner_email vd) db
         = Ok owner ->
         User_objects_get (ProjectRequestCreateSerializer.member_email vd) db
         = Ok member ->
         owns_project_named
           owner (ProjectRequestCreateSerializer.projectname vd) db = false ->
         dispatch (POST_projectrequests (Valid vd)) db
         = (Ok (mkResponse
                  (FieldErrors [("projectname",
                                 "This project does not exist.")])
                  400), db)).
Proof.
  rewrite dispatch_projectrequests.
  unfold ProjectRequestCreateSerializer.create, bind.
  split; [|split].
  - intro Ho. now rewrite (get_user_or_invalid_missing _ _ _ _ Ho).
  - intros owner Ho Hm.
    rewrite (get_user_or_invalid_found _ _ _ _ _ Ho).
    now rewrite (get_user_or_invalid_missing _ _ _ _ Hm).
  - intros owner member Ho Hm Hp.
    rewrite (get_user_or_invalid_found _ _ _ _ _ Ho).
    rewrite (get_user_or_invalid_found _ _ _ _ _ Hm).
    now rewrite (get_project_or_invalid_missing _ _ _ _ _ Hp).
Qed.

Lemma request_join_validation_order_witness :
  dispatch (auth := Sample.auth)
           (POST_projectrequests
              (Valid (ProjectRequestCreateSerializer.mk
                        "nobody@x.com" "P" "nobody@x.com" None)))
           Sample.db
  = (Ok (mkResponse
           (FieldErrors [("owner_email",
                          "Owner with this email does not exist.")])
           400), Sample.db)
  /\ dispatch (auth := Sample.auth)
              (POST_projectrequests
                 (Valid (ProjectRequestCreateSerializer.mk
                           "a@x.com" "nothing" "nobody@x.com" None)))
              Sample.db
     = (Ok (mkResponse
              (FieldErrors [("member_email",
                             "Member with this email does not exist.")])
              400), Sample.db)
  /\ dispatch (auth := Sample.auth)
              (POST_projectrequests
                 (Valid (ProjectRequestCreateSerializer.mk
                           "a@x.com" "R" "b@x.com" None)))
              Sample.db
     = (Ok (mkResponse
              (FieldErrors [("projectname", "This project does not exist.")])
              400), Sample.db).
Proof.
  split; [|split].
  - apply (proj1 (@request_join_validation_order
                    Sample.auth
                    (ProjectRequestCreateSerializer.mk
                       "nobody@x.com" "P" "nobody@x.com" None)
                    Sample.db)).
    apply existsb_not_registered. reflexivity.
  - apply (proj1 (proj2 (@request_join_validation_order
                           Sample.auth
                           (ProjectRequestCreateSerializer.mk
                              "a@x.com" "nothing" "nobody@x.com" None)
                           Sample.db))
                 Sample.alice eq_refl).
    apply existsb_not_registered. reflexivity.
  - exact (proj2 (proj2 (@request_join_validation_order
                           Sample.auth
                           (ProjectRequestCreateSerializer.mk
                              "a@x.com" "R" "b@x.com" None)
                           Sample.db))
                 Sample.alice Sample.bob eq_refl eq_refl eq_refl).
Defined.

(* ------------------------------------------------------------------ *)
(** ** Keys the serializers read without a default *)

(** X6. The optional keys that [create] reads with [validated_data[key]]
    are not optional for it.  Creating a project without the [frontend]
    (or, with it, without the [backend]) flag raises KeyError once the
    owner is found; accepting or rejecting without a [message] raises
    KeyError once owner, member and project are found; the registration
    serializer's [create] without the [frontend] flag raises KeyError
    before the manager has even looked at the email, and so does the
    registration endpoint once the unique validator has let the email
    through.  None of these is answered 400, and the store is
    untouched. *)
Theorem missing_keys_raise {auth : AuthLibrary} db :
  (forall vd owner,
      User_objects_get (ProjectLeadCreateSerializer.email vd) db = Ok owner ->
      (ProjectLeadCreateSerializer.frontend vd = None ->
       dispatch (POST_projectleads (Valid vd)) db
       = (Raise (KeyError "frontend"), db))
      /\ (ProjectLeadCreateSerializer.frontend vd <> None ->
          ProjectLeadCreateSerializer.backend vd = None ->
          dispatch (POST_projectleads (Valid vd)) db
          = (Raise (KeyError "backend"), db)))
  /\ (forall vd owner member project,
         User_objects_get (ProjectMemberCreateSerializer.owner vd) db
         = Ok owner ->
         User_objects_get (ProjectMemberCreateSerializer.email vd) db
         = Ok member ->
         ProjectLead_objects_get
           owner (ProjectMemberCreateSerializer.projectname vd) db
         = Ok project ->
         ProjectMemberCreateSerializer.message vd = None ->
         dispatch (POST_projectmembers (Valid vd)) db
         = (Raise (KeyError "message"), db))
  /\ (forall vd owner member project,
         User_objects_get (ProjectRejectedCreateSerializer.owner vd) db
         = Ok owner ->
         User_objects_get (ProjectRejectedCreateSerializer.email vd) db
         = Ok member ->
         ProjectLead_objects_get
           owner (ProjectRejectedCreateSerializer.projectname vd) db
         = Ok project ->
         ProjectRejectedCreateSerializer.message vd = None ->
         dispatch (POST_projectreject (Valid vd)) db
         = (Raise (KeyError "message"), db))
  /\ (forall vd,
         UsersCreateSerializer.frontend vd = None ->
         UsersCreateSerializer.create vd db
         = (Raise (KeyError "frontend"), db)
         /\ (~ registered (UsersCreateSerializer.email vd) db ->
             dispatch (POST_accounts (Valid vd)) db
             = (Raise (KeyError "frontend"), db))).
Proof.
  split; [|split; [|split]].
  - intros vd owner Ho. rewrite dispatch_projectleads.
    unfold ProjectLeadCreateSerializer.create, bind.
    rewrite (get_user_or_invalid_found _ _ _ _ _ Ho). split.
    + intros ->. reflexivity.
    + intros Hfe ->.
      destruct (ProjectLeadCreateSerializer.frontend vd);
        [reflexivity|contradiction].
  - intros vd owner member project Ho Hm Hp Hmsg.
    rewrite dispatch_projectmembers.
    unfold ProjectMemberCreateSerializer.create, bind.
    rewrite (get_user_or_invalid_found _ _ _ _ _ Ho).
    rewrite (get_user_or_invalid_found _ _ _ _ _ Hm).
    rewrite (get_project_or_invalid_found _ _ _ _ _ _ Hp).
    now rewrite Hmsg.
  - intros vd owner member project Ho Hm Hp Hmsg.
    rewrite dispatch_projectreject.
    unfold ProjectRejectedCreateSerializer.create, bind.
    rewrite (get_user_or_invalid_found _ _ _ _ _ Ho).
    rewrite (get_user_or_invalid_found _ _ _ _ _ Hm).
    rewrite (get_project_or_invalid_found _ _ _ _ _ _ Hp).
    now rewrite Hmsg.
  - intros vd Hfe.
    assert (Hc : UsersCreateSerializer.create vd db
                 = (Raise (KeyError "frontend"), db))
      by (unfold UsersCreateSerializer.create, bind; now rewrite Hfe).
    split; [exact Hc|].
    intro Hn. now rewrite (dispatch_accounts_new _ _ Hn), Hc.
Qed.

Lemma missing_keys_raise_witness :
  dispatch (auth := Sample.auth)
           (POST_projectleads
              (Valid (ProjectLeadCreateSerializer.mk
                        "a@x.com" "N" "d" None (Some true))))
           Sample.db
  = (Raise (KeyError "frontend"), Sample.db)
  /\ dispatch (auth := Sample.auth)
              (POST_projectmembers
                 (Valid (ProjectMemberCreateSerializer.mk
                           "b@x.com" "a@x.com" "P" None)))
              Sample.db
     = (Raise (KeyError "message"), Sample.db)
  /\ dispatch (auth := Sample.auth)
              (POST_accounts
                 (Valid (UsersCreateSerializer.mk
                           "C" "c" "c@x.com" "pw" None None)))
              Sample.db
     = (Raise (KeyError "frontend"), Sample.db).
Proof.
  split; [|split].
  - exact (proj1 (proj1 (@missing_keys_raise Sample.auth Sample.db)
                        (ProjectLeadCreateSerializer.mk
                           "a@x.com" "N" "d" None (Some true))
                        Sample.alice eq_refl)
                 eq_refl).
  - exact (proj1 (proj2 (@missing_keys_raise Sample.auth Sample.db))
                 (ProjectMemberCreateSerializer.mk
                    "b@x.com" "a@x.com" "P" None)
                 Sample.alice Sample.bob Sample.P
                 eq_refl eq_refl eq_refl eq_refl).
  - apply (proj2 (proj2 (proj2 (proj2
             (@missing_keys_raise Sample.auth Sample.db)))
             (UsersCreateSerializer.mk "C" "c" "c@x.com" "pw" None None)
             eq_refl)).
    apply existsb_not_registered. reflexivity.
Defined.

(* ------------------------------------------------------------------ *)
(** ** Posting the same thing again *)

Lemma answer_raise_not_created {A} (render : A -> payload) e db d db' :
  is_server_error e = true \/ is_typed_error e ->
  answer render (Raise e, db) <> (Ok (mkResponse d 201), db').
Proof.
  intros He H.
  destruct (answer_raise render e db He) as [(d' & Hd)|[Hr _]];
    rewrite H in *; discriminate.
Qed.

(** X7. No post succeeds twice in a row.  If a post is answered 201,
    the same post sent again to the store it left changes nothing and is
    not answered 201.  The four posts of the projects application raise
    the store's integrity error, unanswered: the row they would add now
    repeats the unique key of the row the first one added.  A
    registration is stopped by the unique validator and answered 400 on
    [email] when the submitted email is its own normalized form, the one
    that was stored; when it is not, the validator does not find it, and
    the manager's insert of the normalized email raises the integrity
    error. *)
Theorem no_post_succeeds_twice {auth : AuthLibrary} p db d db' :
  dispatch p db = (Ok (mkResponse d 201), db') ->
  match p with
  | POST_accounts (Valid vd) =>
      if normalize_email (UsersCreateSerializer.email vd)
         =? UsersCreateSerializer.email vd
      then dispatch p db'
           = (Ok (mkResponse
                    (FieldErrors RegistrationView.unique_email_error) 400),
              db')
      else dispatch p db' = (Raise IntegrityError, db')
  | _ => dispatch p db' = (Raise IntegrityError, db')
  end.
Proof.
  destruct p as [[e|vd]|[e|vd]|[e|vd]|[e|vd]|[e|vd]]; try discriminate.
  - rewrite (dispatch_accounts vd db).
    destruct (existsb _ (users db)) eqn:Eold; [discriminate|].
    destruct (register_create_cases vd db)
      as [(e & -> & He)|(fe & be & Hfe & Hbe & Hem & _ & ->)]; intro H.
    + exfalso. revert H. apply answer_raise_not_created. now left.
    + injection H as _ <-.
      destruct (normalize_email (UsersCreateSerializer.email vd)
                =? UsersCreateSerializer.email vd) eqn:En.
      * apply dispatch_accounts_stored. eexists. split.
        -- simpl. apply in_or_app. right. now left.
        -- simpl. now apply String.eqb_eq.
      * rewrite dispatch_accounts. unfold set_users at 1.
        cbn [users]. rewrite existsb_app, Eold. simpl. rewrite En. simpl.
        unfold UsersCreateSerializer.create, bind. rewrite Hfe, Hbe. simpl.
        rewrite create_user_duplicate; [reflexivity|assumption|].
        eexists.
        split; [simpl; apply in_or_app; right; now left|reflexivity].
  - rewrite !dispatch_projectleads.
    destruct (project_create_cases vd db)
      as [(e & -> & He)|(o & fe & be & Ho & Hfe & Hbe & _ & ->)]; intro H.
    + exfalso. revert H. now apply answer_raise_not_created.
    + injection H as _ <-.
      match goal with
      | |- context [ProjectLeadCreateSerializer.create vd ?s] =>
          rewrite (project_create_found vd s o fe be Ho Hfe Hbe)
      end.
      unfold owns_project_named, set_projectleads. cbn [projectleads].
      rewrite existsb_app. simpl.
      now rewrite Nat.eqb_refl, String.eqb_refl, orb_true_r.
  - rewrite !dispatch_projectrequests.
    destruct (request_create_cases vd db)
      as [(e & -> & He)|(o & m & pr & Ho & Hm & Hp & _ & ->)]; intro H.
    + exfalso. revert H. now apply answer_raise_not_created.
    + injection H as _ <-.
      match goal with
      | |- context [ProjectRequestCreateSerializer.create vd ?s] =>
          rewrite (request_create_found vd s o m pr Ho Hm Hp)
      end.
      unfold has_pending_request, set_projectrequests.
      cbn [projectrequests]. rewrite existsb_app. simpl.
      now rewrite !Nat.eqb_refl, orb_true_r.
  - rewrite !dispatch_projectmembers.
    destruct (accept_create_cases vd db)
      as [(e & -> & He)|(o & m & pr & msg & Ho & Hm & Hp & Hmsg & _ & ->)];
      intro H.
    + exfalso. revert H. now apply answer_raise_not_created.
    + injection H as _ <-.
      match goal with
      | |- context [ProjectMemberCreateSerializer.create vd ?s] =>
          rewrite (accept_create_found vd s o m pr msg Ho Hm Hp Hmsg)
      end.
      unfold has_joined, set_projectmembers.
      cbn [projectmembers]. rewrite existsb_app. simpl.
      now rewrite !Nat.eqb_refl, orb_true_r.
  - rewrite !dispatch_projectreject.
    destruct (reject_create_cases vd db)
      as [(e & -> & He)|(o & m & pr & msg & Ho & Hm & Hp & Hmsg & _ & ->)];
      intro H.
    + exfalso. revert H. now apply answer_raise_not_created.
    + injection H as _ <-.
      match goal with
      | |- context [ProjectRejectedCreateSerializer.create vd ?s] =>
          rewrite (reject_create_found vd s o m pr msg Ho Hm Hp Hmsg)
      end.
      unfold has_rejection, set_projectrejected.
      cbn [projectrejected]. rewrite existsb_app. simpl.
      now rewrite !Nat.eqb_refl, orb_true_r.
Qed.

Lemma no_post_succeeds_twice_witness :
  dispatch (auth := Sample.auth) Scenario.request_P Scenario.requested_db
  = (Raise IntegrityError, Scenario.requested_db)
  /\ dispatch (auth := Sample.auth) Scenario.register_b
              Scenario.registered_db
     = (Ok (mkResponse (FieldErrors RegistrationView.unique_email_error) 400),
        Scenario.registered_db)
  /\ dispatch (auth := Sample.auth) Scenario.register_a
              (snd (dispatch (auth := Sample.auth) Scenario.register_a
                             empty_store))
     = (Raise IntegrityError,
        snd (dispatch (auth := Sample.auth) Scenario.register_a empty_store)).
Proof.
  split; [|split].
  - exact (@no_post_succeeds_twice
             Sample.auth Scenario.request_P Scenario.project_db
             (MessageData "I am interested in joining this project")
             Scenario.requested_db eq_refl).
  - exact (@no_post_succeeds_twice
             Sample.auth Scenario.register_b
             (snd (dispatch (auth := Sample.auth) Scenario.register_a
                            empty_store))
             (UserData "B" "b" "b@x.com" false true)
             Scenario.registered_db eq_refl).
  - exact (@no_post_succeeds_twice
             Sample.auth Scenario.register_a empty_store
             (UserData "A" "a" "a@x.com" true false)
             (snd (dispatch (auth := Sample.auth) Scenario.register_a
                            empty_store))
             eq_refl).
Defined.

(* ------------------------------------------------------------------ *)
(** ** What the listings show after a post *)

Lemma request_create_Ok vd db row db' :
  ProjectRequestCreateSerializer.create vd db = (Ok row, db') ->
  exists owner member project,
    User_objects_get (ProjectRequestCreateSerializer.owner_email vd) db
    = Ok owner
    /\ User_objects_get (ProjectRequestCreateSerializer.member_email vd) db
       = Ok member
    /\ ProjectLead_objects_get
         owner (ProjectRequestCreateSerializer.projectname vd) db
       = Ok project
    /\ ProjectRequest.project row = ProjectLead.id project
    /\ ProjectRequest.member row = Users.id member
    /\ db' = set_projectrequests db (projectrequests db ++ [row]).
Proof.
  intro H.
  destruct (request_create_cases vd db)
    as [(e & He & _)|(o & m & pr & Ho & Hm & Hp & _ & Heq)];
    rewrite H in *; [discriminate|].
  injection Heq as -> ->. exists o, m, pr. now repeat split.
Qed.

Lemma accept_create_Ok vd db row db' :
  ProjectMemberCreateSerializer.create vd db = (Ok row, db') ->
  exists owner member project,
    User_objects_get (ProjectMemberCreateSerializer.owner vd) db = Ok owner
    /\ User_objects_get (ProjectMemberCreateSerializer.email vd) db
       = Ok member
    /\ ProjectLead_objects_get
         owner (ProjectMemberCreateSerializer.projectname vd) db
       = Ok project
    /\ ProjectMembers.project row = ProjectLead.id project
    /\ ProjectMembers.member row = Users.id member
    /\ db' = set_projectmembers db (projectmembers db ++ [row]).
Proof.
  intro H.
  destruct (accept_create_cases vd db)
    as [(e & He & _)|(o & m & pr & msg & Ho & Hm & Hp & _ & _ & Heq)];
    rewrite H in *; [discriminate|].
  injection Heq as -> ->. exists o, m, pr. now repeat split.
Qed.

Lemma project_create_Ok vd db row db' :
  ProjectLeadCreateSerializer.create vd db = (Ok row, db') ->
  exists owner,
    User_objects_get (ProjectLeadCreateSerializer.email vd) db = Ok owner
    /\ ProjectLead.owner row = Users.id owner
    /\ ProjectLead.projectname row
       = ProjectLeadCreateSerializer.projectname vd
    /\ db' = set_projectleads db (projectleads db ++ [row]).
Proof.
  intro H.
  destruct (project_create_cases vd db)
    as [(e & He & _)|(o & fe & be & Ho & _ & _ & _ & Heq)];
    rewrite H in *; [discriminate|].
  injection Heq as -> ->. exists o. now repeat split.
Qed.

(** X8. A request hides the project from the requester.  After a
    request has been created, the requester's discovery listing, under
    any skill parameters, is the listing of before without the projects
    whose id is the requested one. *)
Theorem request_hides_project vd db row db' qp listing :
  ProjectRequestCreateSerializer.create vd db = (Ok row, db') ->
  truthy (query_params_get qp "email")
  = Some (ProjectRequestCreateSerializer.member_email vd) ->
  ProjectsDisplayView.get_queryset qp db = Ok listing ->
  ProjectsDisplayView.get_queryset qp db'
  = Ok (filter (fun p => negb (ProjectLead.id p
                               =? ProjectRequest.project row)%nat)
               listing).
Proof.
  intros H He.
  apply request_create_Ok in H
    as (o & m & pr & _ & Hm & _ & Hrp & Hrm & ->).
  rewrite (discovery_found qp db _ m He Hm).
  match goal with
    | |- context [ProjectsDisplayView.get_queryset qp ?s] =>
        rewrite (discovery_found qp s _ m He Hm)
    end.
  intro Hl. injection Hl as <-. f_equal.
  rewrite filter_filter. apply filter_ext. intro p.
  unfold discoverable, has_pending_request, has_joined, set_projectrequests.
  cbn [projectrequests projectmembers].
  rewrite existsb_app. simpl. rewrite Hrp, Hrm, Nat.eqb_refl, orb_false_r.
  simpl. rewrite (Nat.eqb_sym (ProjectLead.id pr)).
  destruct (ProjectLead.owner p =? Users.id m)%nat,
    (existsb _ (projectrequests db)), (existsb _ (projectmembers db)),
    (ProjectLead.id p =? ProjectLead.id pr)%nat; reflexivity.
Qed.

Lemma request_hides_project_witness :
  ProjectsDisplayView.get_queryset [("email", "b@x.com")]
                                   Scenario.requested_db
  = Ok (filter (fun p => negb (ProjectLead.id p =? 1)%nat)
               [ProjectLead.mk 1 1 "P" "a project" true false]).
Proof.
  exact (@request_hides_project
           (ProjectRequestCreateSerializer.mk "a@x.com" "P" "b@x.com" None)
           Scenario.project_db
           (ProjectRequest.mk 1 1 2 "I am interested in joining this project")
           Scenario.requested_db
           [("email", "b@x.com")]
           [ProjectLead.mk 1 1 "P" "a project" true false]
           eq_refl eq_refl eq_refl).
Defined.

(** X9. An accepted member sees the membership.  After a membership has
    been created, the member's joined listing is the listing of before
    followed by the new row, and the member's discovery listing is the
    listing of before without the projects whose id is the joined one. *)
Theorem accept_then_listed vd db row db' qp :
  ProjectMemberCreateSerializer.create vd db = (Ok row, db') ->
  truthy (query_params_get qp "email")
  = Some (ProjectMemberCreateSerializer.email vd) ->
  (forall joined,
      JoinedProjectDisplayView.get_queryset qp db = Ok joined ->
      JoinedProjectDisplayView.get_queryset qp db' = Ok (joined ++ [row]))
  /\ (forall listing,
         ProjectsDisplayView.get_queryset qp db = Ok listing ->
         ProjectsDisplayView.get_queryset qp db'
         = Ok (filter (fun p => negb (ProjectLead.id p
                                      =? ProjectMembers.project row)%nat)
                      listing)).
Proof.
  intros H He.
  apply accept_create_Ok in H
    as (o & m & pr & _ & Hm & _ & Hrp & Hrm & ->).
  split.
  - intro joined. unfold JoinedProjectDisplayView.get_queryset.
    rewrite He. unfold set_projectmembers, User_objects_get in *.
    cbn [users projectmembers]. rewrite Hm. simpl.
    intro Hj. injection Hj as <-.
    rewrite filter_app. simpl. now rewrite Hrm, Nat.eqb_refl.
  - intro listing.
    rewrite (discovery_found qp db _ m He Hm).
    match goal with
    | |- context [ProjectsDisplayView.get_queryset qp ?s] =>
        rewrite (discovery_found qp s _ m He Hm)
    end.
    intro Hl. injection Hl as <-. f_equal.
    rewrite filter_filter. apply filter_ext. intro p.
    unfold discoverable, has_pending_request, has_joined, set_projectmembers.
    cbn [projectrequests projectmembers].
    rewrite existsb_app. simpl. rewrite Hrp, Hrm, Nat.eqb_refl, orb_false_r.
    simpl. rewrite (Nat.eqb_sym (ProjectLead.id pr)).
    destruct (ProjectLead.owner p =? Users.id m)%nat,
      (existsb _ (projectrequests db)), (existsb _ (projectmembers db)),
      (ProjectLead.id p =? ProjectLead.id pr)%nat; reflexivity.
Qed.

Lemma accept_then_listed_witness :
  (forall joined,
      JoinedProjectDisplayView.get_queryset [("email", "b@x.com")]
                                            Scenario.requested_db
      = Ok joined ->
      JoinedProjectDisplayView.get_queryset
        [("email", "b@x.com")]
        (snd (dispatch (auth := Sample.auth) Scenario.accept_b
                       Scenario.requested_db))
      = Ok (joined ++ [ProjectMembers.mk 1 1 2 "welcome"]))
  /\ (forall listing,
         ProjectsDisplayView.get_queryset [("email", "b@x.com")]
                                          Scenario.requested_db
         = Ok listing ->
         ProjectsDisplayView.get_queryset
           [("email", "b@x.com")]
           (snd (dispatch (auth := Sample.auth) Scenario.accept_b
                          Scenario.requested_db))
         = Ok (filter (fun p => negb (ProjectLead.id p =? 1)%nat) listing)).
Proof.
  exact (@accept_then_listed
           (ProjectMemberCreateSerializer.mk "b@x.com" "a@x.com" "P"
                                             (Some "welcome"))
           Scenario.requested_db
           (ProjectMembers.mk 1 1 2 "welcome")
           (snd (dispatch (auth := Sample.auth) Scenario.accept_b
                          Scenario.requested_db))
           [("email", "b@x.com")]
           eq_refl eq_refl).
Defined.

(** X10. A rejection changes none of the seven answers the views of the
    projects application compute themselves.  Whatever is posted to the
    reject endpoint and however it ends, the discovery listing, the owned
    listing, the four scoped listings and the counts answer on the store
    it leaves exactly as they did before: none of them reads the rejected
    table.  (The reject view's own inherited listing, which is not one of
    the seven, is the rejected table.) *)
Theorem reject_changes_no_answer {auth : AuthLibrary} s db qp :
  let db' := snd (dispatch (POST_projectreject s) db) in
  ProjectsDisplayView.get_queryset qp db'
  = ProjectsDisplayView.get_queryset qp db
  /\ ProjectLeadView.get_queryset qp db' = ProjectLeadView.get_queryset qp db
  /\ ProjectRequestDisplayView.get_queryset qp db'
     = ProjectRequestDisplayView.get_queryset qp db
  /\ ProjectMembersDisplayView.get_queryset qp db'
     = ProjectMembersDisplayView.get_queryset qp db
  /\ JoinedProjectDisplayView.get_queryset qp db'
     = JoinedProjectDisplayView.get_queryset qp db
  /\ PendingProjectsView.get_queryset qp db'
     = PendingProjectsView.get_queryset qp db
  /\ ProjectCountView.list qp db' = ProjectCountView.list qp db.
Proof.
  intro db'. unfold db'. rewrite dispatch_store.
  destruct s as [e|vd]; [now repeat split|].
  destruct (reject_create_cases vd db)
    as [(e & -> & _)|(o & m & pr & msg & _ & _ & _ & _ & _ & ->)];
    now repeat split.
Qed.

(** X11. A created project is listed for its owner and not offered to
    the owner.  After a project has been created, the owner's listing of
    owned projects is the listing of before followed by the new project,
    and the owner's discovery listing is what it was. *)
Theorem create_project_then_listed vd db row db' qp :
  ProjectLeadCreateSerializer.create vd db = (Ok row, db') ->
  truthy (query_params_get qp "email")
  = Some (ProjectLeadCreateSerializer.email vd) ->
  (forall owned,
      ProjectLeadView.get_queryset qp db = Ok owned ->
      ProjectLeadView.get_queryset qp db' = Ok (owned ++ [row]))
  /\ ProjectsDisplayView.get_queryset qp db'
     = ProjectsDisplayView.get_queryset qp db.
Proof.
  intros H He.
  apply project_create_Ok in H as (o & Ho & Hro & _ & ->).
  split.
  - intro owned. unfold ProjectLeadView.get_queryset.
    rewrite He. unfold set_projectleads, User_objects_get in *.
    cbn [users projectleads]. rewrite Ho. simpl.
    intro Hl. injection Hl as <-.
    rewrite filter_app. simpl. now rewrite Hro, Nat.eqb_refl.
  - rewrite (discovery_found qp db _ o He Ho).
    match goal with
    | |- context [ProjectsDisplayView.get_queryset qp ?s] =>
        rewrite (discovery_found qp s _ o He Ho)
    end.
    f_equal. unfold set_projectleads. cbn [projectleads].
    rewrite <- !skill_filter_filter. f_equal.
    rewrite filter_app. simpl.
    unfold discoverable at 2. rewrite Hro, Nat.eqb_refl. simpl.
    rewrite app_nil_r. apply filter_ext. intro p. reflexivity.
Qed.

Lemma create_project_then_listed_witness :
  (forall owned,
      ProjectLeadView.get_queryset [("email", "a@x.com")]
                                   Scenario.registered_db
      = Ok owned ->
      ProjectLeadView.get_queryset [("email", "a@x.com")] Scenario.project_db
      = Ok (owned ++ [ProjectLead.mk 1 1 "P" "a project" true false]))
  /\ ProjectsDisplayView.get_queryset [("email", "a@x.com")]
                                      Scenario.project_db
     = ProjectsDisplayView.get_queryset [("email", "a@x.com")]
                                        Scenario.registered_db.
Proof.
  exact (@create_project_then_listed
           (ProjectLeadCreateSerializer.mk "a@x.com" "P" "a project"
                                           (Some true) (Some false))
           Scenario.registered_db
           (ProjectLead.mk 1 1 "P" "a project" true false)
           Scenario.project_db
           [("email", "a@x.com")]
           eq_refl eq_refl).
Defined.

(** X12. The counts follow the posts.  For the user concerned, a
    created project raises [createdprojects] by one, a created request
    raises [pendingrequests] by one, and a created membership raises
    [joinedprojects] by one while [pendingrequests] stays as it was: the
    request that led to the membership is still counted as pending. *)
Theorem counts_follow_posts qp db c j n :
  ProjectCountView.list qp db = Ok (mkResponse (CountData c j n) 200) ->
  (forall vd row db',
      ProjectLeadCreateSerializer.create vd db = (Ok row, db') ->
      truthy (query_params_get qp "email")
      = Some (ProjectLeadCreateSerializer.email vd) ->
      ProjectCountView.list qp db'
      = Ok (mkResponse (CountData (S c) j n) 200))
  /\ (forall vd row db',
         ProjectRequestCreateSerializer.create vd db = (Ok row, db') ->
         truthy (query_params_get qp "email")
         = Some (ProjectRequestCreateSerializer.member_email vd) ->
         ProjectCountView.list qp db'
         = Ok (mkResponse (CountData c j (S n)) 200))
  /\ (forall vd row db',
         ProjectMemberCreateSerializer.create vd db = (Ok row, db') ->
         truthy (query_params_get qp "email")
         = Some (ProjectMemberCreateSerializer.email vd) ->
         ProjectCountView.list qp db'
         = Ok (mkResponse (CountData c (S j) n) 200)).
Proof.
  intro Hc. split; [|split]; intros vd row db' H He.
  - apply project_create_Ok in H as (o & Ho & Hro & _ & ->).
    revert Hc. unfold ProjectCountView.list. rewrite He.
    unfold set_projectleads, User_objects_get in *.
    cbn [users projectleads projectmembers projectrequests].
    rewrite Ho. intro Hc. injection Hc as <- <- <-.
    rewrite filter_app, length_app. simpl. rewrite Hro, Nat.eqb_refl. simpl.
    now rewrite Nat.add_1_r.
  - apply request_create_Ok in H as (o & m & pr & _ & Hm & _ & _ & Hrm & ->).
    revert Hc. unfold ProjectCountView.list. rewrite He.
    unfold set_projectrequests, User_objects_get in *.
    cbn [users projectleads projectmembers projectrequests].
    rewrite Hm. intro Hc. injection Hc as <- <- <-.
    rewrite filter_app, length_app. simpl. rewrite Hrm, Nat.eqb_refl. simpl.
    now rewrite Nat.add_1_r.
  - apply accept_create_Ok in H as (o & m & pr & _ & Hm & _ & _ & Hrm & ->).
    revert Hc. unfold ProjectCountView.list. rewrite He.
    unfold set_projectmembers, User_objects_get in *.
    cbn [users projectleads projectmembers projectrequests].
    rewrite Hm. intro Hc. injection Hc as <- <- <-.
    rewrite filter_app, length_app. simpl. rewrite Hrm, Nat.eqb_refl. simpl.
    now rewrite Nat.add_1_r.
Qed.

Lemma counts_follow_posts_witness :
  ProjectCountView.list
    [("email", "b@x.com")]
    (snd (dispatch (auth := Sample.auth) Scenario.accept_b
                   Scenario.requested_db))
  = Ok (mkResponse (CountData 0 1 1) 200).
Proof.
  exact (proj2 (proj2 (@counts_follow_posts
                         [("email", "b@x.com")] Scenario.requested_db 0 0 1
                         eq_refl))
               (ProjectMemberCreateSerializer.mk "b@x.com" "a@x.com" "P"
                                                 (Some "welcome"))
               (ProjectMembers.mk 1 1 2 "welcome")
               (snd (dispatch (auth := Sample.auth) Scenario.accept_b
                              Scenario.requested_db))
               eq_refl eq_refl).
Defined.

(* ------------------------------------------------------------------ *)
(** ** Superusers *)

(** X13. The superuser constructor checks its flags before anything
    else: [is_staff=False] is refused with "Superuser must have
    is_staff=True" even when the email is empty or taken, and, with
    [is_staff] left out or true, [is_superuser=False] is refused with the
    message for that flag.  Otherwise, for a new non-empty email, the user
    is created staff and superuser; [is_active] is only defaulted, never
    checked, so passing [is_active=False] creates an inactive
    superuser. *)
Theorem create_superuser_flags {auth : AuthLibrary} email password extra db :
  (UserManager.is_staff extra = Some false ->
   UserManager.create_superuser email password extra db
   = (Raise (ValueError "Superuser must have is_staff=True"), db))
  /\ (UserManager.is_staff extra <> Some false ->
      UserManager.is_superuser extra = Some false ->
      UserManager.create_superuser email password extra db
      = (Raise (ValueError "Superuser must have is_superuser=True"), db))
  /\ (UserManager.is_staff extra <> Some false ->
      UserManager.is_superuser extra <> Some false ->
      email <> "" ->
      ~ registered (normalize_email email) db ->
      exists user,
        UserManager.create_superuser email password extra db
        = (Ok user, set_users db (users db ++ [user]))
        /\ Users.email user = normalize_email email
        /\ Users.is_staff user = true
        /\ Users.is_superuser user = true
        /\ Users.is_active user
           = get_default (UserManager.is_active extra) true).
Proof.
  unfold UserManager.create_superuser. split; [|split].
  - intros ->. reflexivity.
  - intros Hs ->. destruct (UserManager.is_staff extra) as [[|]|];
      [reflexivity|contradiction|reflexivity].
  - intros Hs Hsu He Hn.
    destruct (UserManager.is_staff extra) as [[|]|] eqn:Es;
      try contradiction;
      destruct (UserManager.is_superuser extra) as [[|]|] eqn:Esu;
      try contradiction; simpl;
      rewrite (create_user_new _ _ _ _ He Hn); eexists;
      (split; [reflexivity|]); simpl; rewrite ?Es, ?Esu;
      repeat split; now destruct (UserManager.is_active extra).
Qed.

Lemma create_superuser_flags_witness :
  UserManager.create_superuser
    (auth := Sample.auth) "" "pw"
    (UserManager.mk_extra None None None None None (Some false) None)
    Sample.db
  = (Raise (ValueError "Superuser must have is_staff=True"), Sample.db)
  /\ exists user,
      UserManager.create_superuser
        (auth := Sample.auth) "root@X.com" "pw"
        (UserManager.mk_extra None None None None (Some false) None None)
        Sample.db
      = (Ok user, set_users Sample.db (users Sample.db ++ [user]))
      /\ Users.email user = "root@x.com"
      /\ Users.is_staff user = true
      /\ Users.is_superuser user = true
      /\ Users.is_active user = false.
Proof.
  split.
  - exact (proj1 (@create_superuser_flags
                    Sample.auth "" "pw"
                    (UserManager.mk_extra None None None None None
                                          (Some false) None)
                    Sample.db)
                 eq_refl).
  - apply (proj2 (proj2 (@create_superuser_flags
                           Sample.auth "root@X.com" "pw"
                           (UserManager.mk_extra None None None None
                                                 (Some false) None None)
                           Sample.db))).
    + discriminate.
    + discriminate.
    + discriminate.
    + apply existsb_not_registered. reflexivity.
Defined.

(* ------------------------------------------------------------------ *)
(** ** Accounts and listings of stores built by posts *)

Lemma plain_accounts_dispatch {auth : AuthLibrary} p db :
  (forall u, In u (users db) -> plain_account u) ->
  forall u, In u (users (snd (dispatch p db))) -> plain_account u.
Proof.
  intro H. rewrite dispatch_store.
  destruct p as [[e|vd]|[e|vd]|[e|vd]|[e|vd]|[e|vd]]; try exact H.
  - destruct (existsb _ (users db)); [exact H|].
    destruct (register_create_cases vd db)
      as [(e & -> & _)|(fe & be & _ & _ & Hem & _ & ->)]; [exact H|].
    simpl. intros u Hu. apply in_app_or in Hu as [Hu|[<-|[]]]; [now apply H|].
    unfold plain_account. simpl. repeat split; try reflexivity.
    + now eexists.
    + now exists (UsersCreateSerializer.email vd).
  - destruct (project_create_cases vd db)
      as [(e & -> & _)|(o & fe & be & _ & _ & _ & _ & ->)]; exact H.
  - destruct (request_create_cases vd db)
      as [(e & -> & _)|(o & m & pr & _ & _ & _ & _ & ->)]; exact H.
  - destruct (accept_create_cases vd db)
      as [(e & -> & _)|(o & m & pr & msg & _ & _ & _ & _ & _ & ->)]; exact H.
  - destruct (reject_create_cases vd db)
      as [(e & -> & _)|(o & m & pr & msg & _ & _ & _ & _ & _ & ->)]; exact H.
Qed.

(** X14. No endpoint makes a privileged or a disabled account.  In
    every store the endpoints can build, every user is active, is neither
    staff nor superuser, has a password that went through the hasher, and
    has for email the normalized form of a non-empty email. *)
Theorem reachable_accounts_plain {auth : AuthLibrary} db :
  reachable db -> forall u, In u (users db) -> plain_account u.
Proof.
  induction 1 as [|db p _ IH].
  - intros u [].
  - now apply plain_accounts_dispatch.
Qed.

Lemma reachable_accounts_plain_witness :
  plain_account
    (auth := Sample.auth)
    (Users.mk 2 "b@x.com" "hash$pb" "B" "b" false true true false false).
Proof.
  apply (@reachable_accounts_plain Sample.auth Scenario.requested_db).
  - apply (@reachable_run_posts
             Sample.auth
             [Scenario.register_a; Scenario.register_b; Scenario.create_P;
              Scenario.request_P]
             empty_store).
    apply reachable_empty.
  - right. left. reflexivity.
Defined.

(** X15. On a store built by posts the listings do not fail, with one
    exception.  The owned listing, the four scoped listings and the counts
    always answer, the counts with 200, 400 or 404; the discovery listing
    answers unless the email parameter is non-empty and belongs to no
    registered user, the one case in which it raises. *)
Theorem reachable_listings_answer {auth : AuthLibrary} db qp :
  reachable db ->
  (exists l, ProjectLeadView.get_queryset qp db = Ok l)
  /\ (exists l, ProjectRequestDisplayView.get_queryset qp db = Ok l)
  /\ (exists l, ProjectMembersDisplayView.get_queryset qp db = Ok l)
  /\ (exists l, JoinedProjectDisplayView.get_queryset qp db = Ok l)
  /\ (exists l, PendingProjectsView.get_queryset qp db = Ok l)
  /\ (exists r, ProjectCountView.list qp db = Ok r
                /\ (status r = 200 \/ status r = 400 \/ status r = 404))
  /\ ((exists l, ProjectsDisplayView.get_queryset qp db = Ok l)
      \/ (ProjectsDisplayView.get_queryset qp db
          = Raise (UnboundLocalError "user")
          /\ exists email,
              truthy (query_params_get qp "email") = Some email
              /\ ~ registered email db)).
Proof.
  intro H. apply reachable_constraints in H.
  unfold ProjectLeadView.get_queryset, ProjectRequestDisplayView.get_queryset,
    ProjectMembersDisplayView.get_queryset,
    JoinedProjectDisplayView.get_queryset, PendingProjectsView.get_queryset,
    ProjectCountView.list.
  destruct (truthy (query_params_get qp "email")) as [email|] eqn:He.
  2: { unfold ProjectsDisplayView.get_queryset. rewrite He.
       repeat split; try (eexists; reflexivity).
       - eexists. split; [reflexivity|]. simpl. auto.
       - left. eexists. reflexivity. }
  destruct (user_lookup_under_constraints email db H)
    as [[_ [u Hu]]|[Hn Hu]]; rewrite Hu; simpl.
  - repeat split; try (eexists; reflexivity).
    + destruct (truthy (query_params_get qp "projectname")) as [name|];
        [|eexists; reflexivity].
      destruct (project_lookup_under_constraints u name db H)
        as [[_ [p ->]]|[_ ->]]; eexists; reflexivity.
    + destruct (truthy (query_params_get qp "projectname")) as [name|];
        [|eexists; reflexivity].
      destruct (ProjectLead_objects_get u name db); eexists; reflexivity.
    + eexists. split; [reflexivity|]. simpl. auto.
    + left. rewrite (discovery_found qp db _ u He Hu). eexists. reflexivity.
  - repeat split; try (eexists; reflexivity).
    + destruct (truthy (query_params_get qp "projectname"));
        eexists; reflexivity.
    + destruct (truthy (query_params_get qp "projectname"));
        eexists; reflexivity.
    + eexists. split; [reflexivity|]. simpl. auto.
    + right. unfold ProjectsDisplayView.get_queryset. rewrite He, Hu.
      split; [reflexivity|]. now exists email.
Qed.

Lemma reachable_listings_answer_witness :
  (exists l, ProjectLeadView.get_queryset [("email", "zz@x.com")]
                                          Scenario.requested_db = Ok l)
  /\ (ProjectsDisplayView.get_queryset [("email", "zz@x.com")]
                                       Scenario.requested_db
      = Raise (UnboundLocalError "user")).
Proof.
  assert (Hr : reachable (auth := Sample.auth) Scenario.requested_db).
  { apply (@reachable_run_posts
             Sample.auth
             [Scenario.register_a; Scenario.register_b; Scenario.create_P;
              Scenario.request_P]
             empty_store).
    apply reachable_empty. }
  split.
  - exact (proj1 (@reachable_listings_answer
                    Sample.auth Scenario.requested_db
                    [("email", "zz@x.com")] Hr)).
  - reflexivity.
Defined.

(* ------------------------------------------------------------------ *)
(** ** Accepting and rejecting: validation and the owner's view *)

(** X16. Accept and reject validate like a request, owner first, then
    member, then project, but report under other keys: [owner], [member]
    and [project] (a request reports under [owner_email], [member_email]
    and [projectname]).  Each failure is answered 400 and leaves the
    store untouched. *)
Theorem accept_reject_validation_order {auth : AuthLibrary} db :
  (forall vd,
      (~ registered (ProjectMemberCreateSerializer.owner vd) db ->
       dispatch (POST_projectmembers (Valid vd)) db
       = (Ok (mkResponse
                (FieldErrors [("owner",
                               "Owner with this email does not exist")])
                400), db))
      /\ (forall owner,
             User_objects_get (ProjectMemberCreateSerializer.owner vd) db
             = Ok owner ->
             ~ registered (ProjectMemberCreateSerializer.email vd) db ->
             dispatch (POST_projectmembers (Valid vd)) db
             = (Ok (mkResponse
                      (FieldErrors [("member",
                                     "Member with this email does not exist")])
                      400), db))
      /\ (forall owner member,
             User_objects_get (ProjectMemberCreateSerializer.owner vd) db
             = Ok owner ->
             User_objects_get (ProjectMemberCreateSerializer.email vd) db
             = Ok member ->
             owns_project_named
               owner (ProjectMemberCreateSerializer.projectname vd) db
             = false ->
             dispatch (POST_projectmembers (Valid vd)) db
             = (Ok (mkResponse
                      (FieldErrors [("project",
                                     "This project does not exist")])
                      400), db)))
  /\ (forall vd,
         (~ registered (ProjectRejectedCreateSerializer.owner vd) db ->
          dispatch (POST_projectreject (Valid vd)) db
          = (Ok (mkResponse
                   (FieldErrors [("owner",
                                  "Owner with this email does not exist")])
                   400), db))
         /\ (forall owner,
                User_objects_get (ProjectRejectedCreateSerializer.owner vd) db
                = Ok owner ->
                ~ registered (ProjectRejectedCreateSerializer.email vd) db ->
                dispatch (POST_projectreject (Valid vd)) db
                = (Ok (mkResponse
                         (FieldErrors
                            [("member",
                              "Member with this email does not exist")])
                         400), db))
         /\ (forall owner member,
                User_objects_get (ProjectRejectedCreateSerializer.owner vd) db
                = Ok owner ->
                User_objects_get (ProjectRejectedCreateSerializer.email vd) db
                = Ok member ->
                owns_project_named
                  owner (ProjectRejectedCreateSerializer.projectname vd) db
                = false ->
                dispatch (POST_projectreject (Valid vd)) db
                = (Ok (mkResponse
                         (FieldErrors [("project",
                                        "This project does not exist")])
                         400), db))).
Proof.
  split; intro vd.
  - rewrite dispatch_projectmembers.
    unfold ProjectMemberCreateSerializer.create, bind.
    split; [|split].
    + intro Ho. now rewrite (get_user_or_invalid_missing _ _ _ _ Ho).
    + intros owner Ho Hm.
      rewrite (get_user_or_invalid_found _ _ _ _ _ Ho).
      now rewrite (get_user_or_invalid_missing _ _ _ _ Hm).
    + intros owner member Ho Hm Hp.
      rewrite (get_user_or_invalid_found _ _ _ _ _ Ho).
      rewrite (get_user_or_invalid_found _ _ _ _ _ Hm).
      now rewrite (get_project_or_invalid_missing _ _ _ _ _ Hp).
  - rewrite dispatch_projectreject.
    unfold ProjectRejectedCreateSerializer.create, bind.
    split; [|split].
    + intro Ho. now rewrite (get_user_or_invalid_missing _ _ _ _ Ho).
    + intros owner Ho Hm.
      rewrite (get_user_or_invalid_found _ _ _ _ _ Ho).
      now rewrite (get_user_or_invalid_missing _ _ _ _ Hm).
    + intros owner member Ho Hm Hp.
      rewrite (get_user_or_invalid_found _ _ _ _ _ Ho).
      rewrite (get_user_or_invalid_found _ _ _ _ _ Hm).
      now rewrite (get_project_or_invalid_missing _ _ _ _ _ Hp).
Qed.

Lemma accept_reject_validation_order_witness :
  dispatch (auth := Sample.auth)
           (POST_projectmembers
              (Valid (ProjectMemberCreateSerializer.mk
                        "b@x.com" "nobody@x.com" "P" None)))
           Sample.db
  = (Ok (mkResponse
           (FieldErrors [("owner", "Owner with this email does not exist")])
           400), Sample.db)
  /\ dispatch (auth := Sample.auth)
              (POST_projectreject
                 (Valid (ProjectRejectedCreateSerializer.mk
                           "b@x.com" "a@x.com" "R" None)))
              Sample.db
     = (Ok (mkResponse
              (FieldErrors [("project", "This project does not exist")])
              400), Sample.db).
Proof.
  split.
  - apply (proj1 (proj1 (@accept_reject_validation_order
                           Sample.auth Sample.db)
                        (ProjectMemberCreateSerializer.mk
                           "b@x.com" "nobody@x.com" "P" None))).
    apply existsb_not_registered. reflexivity.
  - exact (proj2 (proj2 (proj2 (@accept_reject_validation_order
                                  Sample.auth Sample.db)
                               (ProjectRejectedCreateSerializer.mk
                                  "b@x.com" "a@x.com" "R" None)))
                 Sample.alice Sample.bob eq_refl eq_refl eq_refl).
Defined.

(** X17. The owner's view of a project follows the posts, and keeps the
    request.  For the owner's email and the project's name, the listing of
    pending requests grows by the new row when a request is created, and
    the listing of members grows by the new row when a membership is
    created; that same membership leaves the listing of pending requests
    as it was, the accepted request included. *)
Theorem owner_view_follows_posts db qp :
  (forall vd row db' old,
      ProjectRequestCreateSerializer.create vd db = (Ok row, db') ->
      truthy (query_params_get qp "email")
      = Some (ProjectRequestCreateSerializer.owner_email vd) ->
      truthy (query_params_get qp "projectname")
      = Some (ProjectRequestCreateSerializer.projectname vd) ->
      ProjectRequestDisplayView.get_queryset qp db = Ok old ->
      ProjectRequestDisplayView.get_queryset qp db' = Ok (old ++ [row]))
  /\ (forall vd row db',
         ProjectMemberCreateSerializer.create vd db = (Ok row, db') ->
         truthy (query_params_get qp "email")
         = Some (ProjectMemberCreateSerializer.owner vd) ->
         truthy (query_params_get qp "projectname")
         = Some (ProjectMemberCreateSerializer.projectname vd) ->
         (forall old,
             ProjectMembersDisplayView.get_queryset qp db = Ok old ->
             ProjectMembersDisplayView.get_queryset qp db'
             = Ok (old ++ [row]))
         /\ ProjectRequestDisplayView.get_queryset qp db'
            = ProjectRequestDisplayView.get_queryset qp db).
Proof.
  split.
  - intros vd row db' old H He Hn.
    apply request_create_Ok in H
      as (o & m & pr & Ho & _ & Hp & Hrp & _ & ->).
    unfold ProjectRequestDisplayView.get_queryset. rewrite He, Hn.
    unfold set_projectrequests, User_objects_get, ProjectLead_objects_get
      in *.
    cbn [users projectleads projectrequests]. rewrite Ho. simpl.
    rewrite Hp. simpl. intro Hl. injection Hl as <-.
    rewrite filter_app. simpl. now rewrite Hrp, Nat.eqb_refl.
  - intros vd row db' H He Hn.
    apply accept_create_Ok in H
      as (o & m & pr & Ho & _ & Hp & Hrp & _ & ->).
    split; [|reflexivity].
    intro old. unfold ProjectMembersDisplayView.get_queryset.
    rewrite He, Hn.
    unfold set_projectmembers, User_objects_get, ProjectLead_objects_get
      in *.
    cbn [users projectleads projectmembers]. rewrite Ho. simpl.
    rewrite Hp. simpl. intro Hl. injection Hl as <-.
    rewrite filter_app. simpl. now rewrite Hrp, Nat.eqb_refl.
Qed.

Lemma owner_view_follows_posts_witness :
  ProjectRequestDisplayView.get_queryset
    [("email", "a@x.com"); ("projectname", "P")] Scenario.requested_db
  = Ok ([] ++ [ProjectRequest.mk
                 1 1 2 "I am interested in joining this project"])
  /\ ProjectRequestDisplayView.get_queryset
       [("email", "a@x.com"); ("projectname", "P")]
       (snd (dispatch (auth := Sample.auth) Scenario.accept_b
                      Scenario.requested_db))
     = ProjectRequestDisplayView.get_queryset
         [("email", "a@x.com"); ("projectname", "P")] Scenario.requested_db.
Proof.
  split.
  - exact (proj1 (@owner_view_follows_posts
                    Scenario.project_db
                    [("email", "a@x.com"); ("projectname", "P")])
                 (ProjectRequestCreateSerializer.mk
                    "a@x.com" "P" "b@x.com" None)
                 (ProjectRequest.mk
                    1 1 2 "I am interested in joining this project")
                 Scenario.requested_db []
                 eq_refl eq_refl eq_refl eq_refl).
  - exact (proj2 (proj2 (@owner_view_follows_posts
                           Scenario.requested_db
                           [("email", "a@x.com"); ("projectname", "P")])
                        (ProjectMemberCreateSerializer.mk
                           "b@x.com" "a@x.com" "P" (Some "welcome"))
                        (ProjectMembers.mk 1 1 2 "welcome")
                        (snd (dispatch (auth := Sample.auth) Scenario.accept_b
                                       Scenario.requested_db))
                        eq_refl eq_refl eq_refl)).
Defined.
